(** * Countdown timers of the sports portal

    A shallow embedding of the two countdown scripts of the site:

    - [Golf]: [time_remaining] and [run_clock] of [static/js/golf.js];
    - [Countdown]: the self-invoking countdown function of the second
      script (deadline on 09/30, interval callback);
    - [Page]: the click and scroll handlers of both scripts that only add,
      remove or toggle class names and set a style.

    [JS] holds the part of the host language both scripts rely on: numbers
    with NaN, the arithmetic operators, [Math.floor], string conversion,
    [slice], [padStart], string comparison, the day arithmetic behind [Date]
    and the interval table behind [setInterval] and [clearInterval].

    Numbers.  A JavaScript number is modelled as [NaN] or an exact rational;
    [/] is the exact quotient and [%] the remainder that keeps the sign of
    the dividend.  The rounding of IEEE doubles and the infinities are not
    modelled: every operand of this program is an integer number of
    milliseconds divided by a non-zero literal. *)

From Stdlib Require Import ZArith QArith Qround Qreduction.
From Stdlib Require Import Bool List String Ascii DecimalString Lia.
From Stdlib Require Qcanon.
Import ListNotations.

Open Scope string_scope.
Open Scope Z_scope.

(** ** State monad used for the page *)

Definition State (W A : Type) : Type := W -> A * W.

Definition ret {W A : Type} (a : A) : State W A := fun w => (a, w).

Definition bind {W A B : Type} (m : State W A) (k : A -> State W B) : State W B :=
  fun w => let (a, w') := m w in k a w'.

Definition gets {W A : Type} (f : W -> A) : State W A := fun w => (f w, w).

Definition modify {W : Type} (f : W -> W) : State W unit := fun w => (tt, f w).

Definition exec {W A : Type} (m : State W A) (w : W) : W := snd (m w).

Declare Scope state_scope.
Delimit Scope state_scope with state.
Notation "x <- m ;; k" := (bind m (fun x => k))
  (at level 61, m at next level, right associativity) : state_scope.
Notation "m ;; k" := (bind m (fun _ => k))
  (at level 61, right associativity) : state_scope.

(** ** The host language *)

Module JS.

(** *** Numbers *)

Inductive number : Type :=
| NaN
| Num (q : Q).

Definition of_Z (z : Z) : number := Num (inject_Z z).

(** Binary operators propagate NaN; finite results are kept reduced, so
    that equal numbers are equal terms. *)
Definition lift2 (f : Q -> Q -> Q) (a b : number) : number :=
  match a, b with
  | Num x, Num y => Num (Qred (f x y))
  | _, _ => NaN
  end.

Definition sub : number -> number -> number := lift2 Qminus.
Definition add : number -> number -> number := lift2 Qplus.
Definition mul : number -> number -> number := lift2 Qmult.

(** [a / b] for a non-zero divisor.  Division by zero gives an infinity or
    NaN in JavaScript; the model has no infinity and answers NaN. *)
Definition div (a b : number) : number :=
  match a, b with
  | Num x, Num y => if Qeq_bool y 0 then NaN else Num (Qred (x / y))
  | _, _ => NaN
  end.

(** The integer part, rounding toward zero. *)
Definition Qtrunc (x : Q) : Z :=
  if Qle_bool 0 x then Qfloor x else Qceiling x.

(** [a % b]: [a - b * q] where [q] is [a / b] rounded toward zero, so the
    result has the sign of the dividend. *)
Definition Qrem (x y : Q) : Q := (x - y * inject_Z (Qtrunc (x / y)))%Q.

Definition rem (a b : number) : number :=
  match a, b with
  | Num x, Num y => if Qeq_bool y 0 then NaN else Num (Qred (Qrem x y))
  | _, _ => NaN
  end.

Definition Math_floor (a : number) : number :=
  match a with
  | Num x => of_Z (Qfloor x)
  | NaN => NaN
  end.

(** Comparisons are false as soon as one side is NaN. *)
Definition le (a b : number) : bool :=
  match a, b with
  | Num x, Num y => Qle_bool x y
  | _, _ => false
  end.

Definition lt (a b : number) : bool :=
  match a, b with
  | Num x, Num y => negb (Qle_bool y x)
  | _, _ => false
  end.

(** *** Strings *)

Definition string_of_Z (z : Z) : string := NilEmpty.string_of_int (Z.to_int z).

Definition is_integral (a : number) : bool :=
  match a with
  | NaN => false
  | Num x => Qeq_bool x (inject_Z (Qfloor x))
  end.

(** Conversion of a number to a string: ["NaN"], or the decimal digits of
    an integer with a leading minus sign when negative.  A fractional value
    prints a decimal fraction in JavaScript; the model prints its integer
    part followed by a dot.  The scripts render date fields and results of
    [Math.floor] only, which are NaN or integers
    ([NumberFacts.floor_is_integral]). *)
Definition ToString (a : number) : string :=
  match a with
  | NaN => "NaN"
  | Num x => if is_integral a then string_of_Z (Qfloor x)
             else string_of_Z (Qtrunc x) ++ "."
  end.

(** [s.slice(start)] with one argument: a negative [start] counts from the
    end of the string, and both ends are clamped to the string. *)
Definition slice (start : Z) (s : string) : string :=
  let len := Z.of_nat (String.length s) in
  let from := if start <? 0 then Z.max (len + start) 0 else Z.min start len in
  substring (Z.to_nat from) (Z.to_nat (len - from)) s.

Fixpoint repeat_char (c : ascii) (n : nat) : string :=
  match n with
  | O => EmptyString
  | S n' => String c (repeat_char c n')
  end.

(** [s.padStart(target, c)] for a one-character filler [c]. *)
Definition padStart (target : nat) (c : ascii) (s : string) : string :=
  repeat_char c (target - String.length s) ++ s.

(** [a > b] on strings: lexicographic order on the code units. *)
Definition string_gt (a b : string) : bool :=
  match String.compare a b with
  | Gt => true
  | _ => false
  end.

(** *** Day arithmetic of [Date] *)

Definition msPerSecond : Z := 1000.
Definition msPerMinute : Z := 60000.
Definition msPerHour : Z := 3600000.
Definition msPerDay : Z := 86400000.

Definition InLeapYear (y : Z) : bool :=
  ((y mod 4 =? 0) && negb (y mod 100 =? 0)) || (y mod 400 =? 0).

Definition DayFromYear (y : Z) : Z :=
  365 * (y - 1970) + (y - 1969) / 4 - (y - 1901) / 100 + (y - 1601) / 400.

(** Number of days from 1 January to the first day of month [m] (0-based). *)
Definition DayWithinYear (leap : bool) (m : Z) : Z :=
  let l := if leap then 1 else 0 in
  match m with
  | 0 => 0
  | 1 => 31
  | 2 => 59 + l
  | 3 => 90 + l
  | 4 => 120 + l
  | 5 => 151 + l
  | 6 => 181 + l
  | 7 => 212 + l
  | 8 => 243 + l
  | 9 => 273 + l
  | 10 => 304 + l
  | _ => 334 + l
  end.

Definition DaysInMonth (leap : bool) (m : Z) : Z :=
  match m with
  | 1 => if leap then 29 else 28
  | 3 | 5 | 8 | 10 => 30
  | _ => 31
  end.

(** [MakeDay(year, month, date)], month counted from 0. *)
Definition MakeDay (year month date : Z) : Z :=
  let ym := year + month / 12 in
  let mn := month mod 12 in
  DayFromYear ym + DayWithinYear (InLeapYear ym) mn + date - 1.

Definition MakeTime (hour min sec ms : Z) : Z :=
  hour * msPerHour + min * msPerMinute + sec * msPerSecond + ms.

Definition MakeDate (day time : Z) : Z := day * msPerDay + time.

(** [Date.UTC(year, month, date, hours, minutes, seconds)]. *)
Definition Date_UTC (year month date hour min sec : Z) : Z :=
  MakeDate (MakeDay year month date) (MakeTime hour min sec 0).

(** *** Two date formats, for running the scripts on concrete strings

    What [Date.parse] accepts beyond the ISO format is left to the host, so
    the scripts below take the parser as a parameter.  These two parsers
    are instances: the ISO format in UTC, and [MM/DD/YYYY] read as local
    midnight in a zone [tza] milliseconds east of UTC. *)

Definition digit_val (c : ascii) : option Z :=
  let n := Z.of_N (N_of_ascii c) in
  if (48 <=? n) && (n <=? 57) then Some (n - 48) else None.

Fixpoint take_digits (k : nat) (acc : Z) (s : string) : option (Z * string) :=
  match k with
  | O => Some (acc, s)
  | S k' =>
      match s with
      | String c s' =>
          match digit_val c with
          | Some v => take_digits k' (10 * acc + v) s'
          | None => None
          end
      | EmptyString => None
      end
  end.

Fixpoint all_digits (acc : Z) (s : string) : option Z :=
  match s with
  | EmptyString => Some acc
  | String c s' =>
      match digit_val c with
      | Some v => all_digits (10 * acc + v) s'
      | None => None
      end
  end.

Definition expect (c : ascii) (s : string) : option string :=
  match s with
  | String c' s' => if Ascii.eqb c c' then Some s' else None
  | EmptyString => None
  end.

Definition valid_date (y m d : Z) : bool :=
  (1 <=? m) && (m <=? 12) && (1 <=? d) && (d <=? DaysInMonth (InLeapYear y) (m - 1)).

Definition valid_time (h mi s : Z) : bool :=
  (h <=? 23) && (mi <=? 59) && (s <=? 59).

(** Fraction of a second: nothing, or a dot and three digits. *)
Definition parse_millis (s : string) : option (Z * string) :=
  match s with
  | String "."%char s' => take_digits 3 0 s'
  | _ => Some (0, s)
  end.

Definition parse_iso (s : string) : option Z :=
  match take_digits 4 0 s with
  | Some (y, s) =>
  match expect "-" s with
  | Some s =>
  match take_digits 2 0 s with
  | Some (m, s) =>
  match expect "-" s with
  | Some s =>
  match take_digits 2 0 s with
  | Some (d, s) =>
  match expect "T" s with
  | Some s =>
  match take_digits 2 0 s with
  | Some (h, s) =>
  match expect ":" s with
  | Some s =>
  match take_digits 2 0 s with
  | Some (mi, s) =>
  match expect ":" s with
  | Some s =>
  match take_digits 2 0 s with
  | Some (sec, s) =>
  match parse_millis s with
  | Some (ms, "Z") =>
      if valid_date y m d && valid_time h mi sec
      then Some (MakeDate (MakeDay y (m - 1) d) (MakeTime h mi sec ms))
      else None
  | _ => None
  end
  | None => None end | None => None end | None => None end
  | None => None end | None => None end | None => None end
  | None => None end | None => None end | None => None end
  | None => None end | None => None end.

Definition parse_mdy (tza : Z) (s : string) : option Z :=
  match take_digits 2 0 s with
  | Some (m, s) =>
  match expect "/" s with
  | Some s =>
  match take_digits 2 0 s with
  | Some (d, s) =>
  match expect "/" s with
  | Some (String c s') =>
      match all_digits 0 (String c s') with
      | Some y =>
          if valid_date y m d
          then Some (MakeDate (MakeDay y (m - 1) d) 0 - tza)
          else None
      | None => None
      end
  | _ => None
  end
  | None => None end | None => None end | None => None end.

Definition number_of_parse (r : option Z) : number :=
  match r with
  | Some t => of_Z t
  | None => NaN
  end.

Definition Date_parse_iso (s : string) : number := number_of_parse (parse_iso s).

Definition Date_parse_mdy (tza : Z) (s : string) : number :=
  number_of_parse (parse_mdy tza s).

(** A host that reads both formats. *)
Definition Date_parse_both (tza : Z) (s : string) : number :=
  match parse_iso s with
  | Some t => of_Z t
  | None => Date_parse_mdy tza s
  end.

(** *** Interval timers

    The host keeps a table of the armed intervals.  [setInterval] arms a
    new entry under a fresh handle and returns the handle; [clearInterval]
    removes the entry of the handle it is given and does nothing for
    [undefined] (here [None]) or an unknown handle. *)

Definition handle : Type := nat.

Record interval (C : Type) : Type := {
  id : handle;
  callback : C;
  delay : Z
}.
Arguments id {C} _.
Arguments callback {C} _.
Arguments delay {C} _.

Record timers (C : Type) : Type := {
  armed : list (interval C);
  next_id : handle
}.
Arguments armed {C} _.
Arguments next_id {C} _.

Definition no_timers {C : Type} : timers C := {| armed := []; next_id := 1%nat |}.

Definition setInterval {C : Type} (cb : C) (ms : Z) (t : timers C) : handle * timers C :=
  (next_id t,
   {| armed := (armed t ++ [{| id := next_id t; callback := cb; delay := ms |}])%list;
      next_id := S (next_id t) |}).

Definition clearInterval {C : Type} (h : option handle) (t : timers C) : timers C :=
  match h with
  | None => t
  | Some n =>
      {| armed := filter (fun e => negb (Nat.eqb (id e) n)) (armed t);
         next_id := next_id t |}
  end.

Definition lookup {C : Type} (n : handle) (t : timers C) : option C :=
  option_map callback (find (fun e => Nat.eqb (id e) n) (armed t)).

Definition is_armed {C : Type} (n : handle) (t : timers C) : bool :=
  match lookup n t with
  | Some _ => true
  | None => false
  end.

(** One turn of the host's timer loop: the clock has reached [reading] and
    every interval that was armed at the start of the turn runs its
    callback, unless an earlier callback of the same turn cleared it. *)
Section Host.
Context {W C : Type}.
Variable timers_of : W -> timers C.
Variable set_clock : Z -> W -> W.
Variable run : C -> State W unit.

Fixpoint fire_each (l : list (interval C)) : State W unit :=
  match l with
  | [] => ret tt
  | e :: l' =>
      (still <- gets (fun w => is_armed (id e) (timers_of w)) ;;
       (if still then run (callback e) else ret tt) ;;
       fire_each l')%state
  end.

Definition host_tick (reading : Z) : State W unit :=
  (modify (set_clock reading) ;;
   l <- gets (fun w => armed (timers_of w)) ;;
   fire_each l)%state.

Fixpoint host_run (readings : list Z) : State W unit :=
  match readings with
  | [] => ret tt
  | r :: rs => (host_tick r ;; host_run rs)%state
  end.
End Host.

Declare Scope js_scope.
Delimit Scope js_scope with js.
Coercion of_Z : Z >-> number.
Infix "-" := sub : js_scope.
Infix "+" := add : js_scope.
Infix "*" := mul : js_scope.
Infix "/" := div : js_scope.
(** [a %% b] stands for the [a % b] of the source. *)
Infix "%%" := rem (at level 40, left associativity) : js_scope.
Infix "<=?" := le : js_scope.
Infix "<?" := lt : js_scope.

End JS.

(** ** [static/js/golf.js]: [time_remaining] and [run_clock] *)

Module Golf.
Import JS.

(** The object returned by [time_remaining]. *)
Record Remaining : Type := {
  total : number;
  days : number;
  hours : number;
  minutes : number;
  seconds : number
}.

(** The function handed to [setInterval]: [update_clock], closed over the
    [endtime] of its [run_clock] call. *)
Inductive callback : Type :=
| update_clock_cb (endtime : string).

(** What an observer of the page can see happen: a run of [update_clock]
    with the duration it computed, and a call of [clearInterval] with its
    argument. *)
Inductive event : Type :=
| Tick (t : Remaining)
| Cleared (h : option handle).

(** The page: the value [Date.parse(new Date())] has at the moment, the
    text of the four spans of the clock element, the host's interval table,
    the variable [timeinterval] of [run_clock] ([None] while it is still
    undefined) and the events so far. *)
Record World : Type := {
  now : Z;
  days_span : string;
  hours_span : string;
  minutes_span : string;
  seconds_span : string;
  scheduled : timers callback;
  timeinterval : option handle;
  trace : list event
}.

Definition set_now (v : Z) (w : World) : World :=
  {| now := v; days_span := days_span w; hours_span := hours_span w;
     minutes_span := minutes_span w; seconds_span := seconds_span w;
     scheduled := scheduled w; timeinterval := timeinterval w; trace := trace w |}.

Definition set_days_span (v : string) (w : World) : World :=
  {| now := now w; days_span := v; hours_span := hours_span w;
     minutes_span := minutes_span w; seconds_span := seconds_span w;
     scheduled := scheduled w; timeinterval := timeinterval w; trace := trace w |}.

Definition set_hours_span (v : string) (w : World) : World :=
  {| now := now w; days_span := days_span w; hours_span := v;
     minutes_span := minutes_span w; seconds_span := seconds_span w;
     scheduled := scheduled w; timeinterval := timeinterval w; trace := trace w |}.

Definition set_minutes_span (v : string) (w : World) : World :=
  {| now := now w; days_span := days_span w; hours_span := hours_span w;
     minutes_span := v; seconds_span := seconds_span w;
     scheduled := scheduled w; timeinterval := timeinterval w; trace := trace w |}.

Definition set_seconds_span (v : string) (w : World) : World :=
  {| now := now w; days_span := days_span w; hours_span := hours_span w;
     minutes_span := minutes_span w; seconds_span := v;
     scheduled := scheduled w; timeinterval := timeinterval w; trace := trace w |}.

Definition set_scheduled (v : timers callback) (w : World) : World :=
  {| now := now w; days_span := days_span w; hours_span := hours_span w;
     minutes_span := minutes_span w; seconds_span := seconds_span w;
     scheduled := v; timeinterval := timeinterval w; trace := trace w |}.

Definition set_timeinterval (v : option handle) (w : World) : World :=
  {| now := now w; days_span := days_span w; hours_span := hours_span w;
     minutes_span := minutes_span w; seconds_span := seconds_span w;
     scheduled := scheduled w; timeinterval := v; trace := trace w |}.

Definition emit (e : event) (w : World) : World :=
  {| now := now w; days_span := days_span w; hours_span := hours_span w;
     minutes_span := minutes_span w; seconds_span := seconds_span w;
     scheduled := scheduled w; timeinterval := timeinterval w;
     trace := (trace w ++ [e])%list |}.

(** The page as loaded at clock value [t]: empty spans, no interval. *)
Definition page_load (t : Z) : World :=
  {| now := t; days_span := ""; hours_span := ""; minutes_span := "";
     seconds_span := ""; scheduled := no_timers; timeinterval := None;
     trace := [] |}.

Definition setInterval (cb : callback) (ms : Z) : State World handle :=
  fun w => let (h, t) := JS.setInterval cb ms (scheduled w) in (h, set_scheduled t w).

Definition clearInterval (h : option handle) : State World unit :=
  (modify (emit (Cleared h)) ;;
   modify (fun w => set_scheduled (JS.clearInterval h (scheduled w)) w))%state.

Section WithHost.

(** The host's [Date.parse]. *)
Variable Date_parse : string -> number.

Definition time_remaining (endtime : string) : State World Remaining :=
  (current <- gets now ;;
   let t := (Date_parse endtime - of_Z current)%js in
   let seconds := Math_floor ((t / 1000) %% 60)%js in
   let minutes := Math_floor ((t / 1000 / 60) %% 60)%js in
   let hours := Math_floor ((t / (1000 * 60 * 60)) %% 24)%js in
   let days := Math_floor (t / (1000 * 60 * 60 * 24))%js in
   ret {| total := t; days := days; hours := hours; minutes := minutes;
          seconds := seconds |})%state.

Definition update_clock (endtime : string) : State World unit :=
  (t <- time_remaining endtime ;;
   modify (emit (Tick t)) ;;
   modify (set_days_span (ToString (days t))) ;;
   modify (set_hours_span (slice (-2) ("0" ++ ToString (hours t)))) ;;
   modify (set_minutes_span (slice (-2) ("0" ++ ToString (minutes t)))) ;;
   modify (set_seconds_span (slice (-2) ("0" ++ ToString (seconds t)))) ;;
   if (total t <=? 0)%js
   then (h <- gets timeinterval ;; clearInterval h)
   else ret tt)%state.

(** [run_clock(id, endtime)].  The page has one clock element, whose spans
    are the fields of the world, so [id] selects nothing here.  The
    declaration [var timeinterval] is hoisted: the variable exists, with no
    value, while the first [update_clock] runs. *)
Definition run_clock (id : string) (endtime : string) : State World unit :=
  (modify (set_timeinterval None) ;;
   update_clock endtime ;;
   h <- setInterval (update_clock_cb endtime) 1000 ;;
   modify (set_timeinterval (Some h)))%state.

Definition run_callback (cb : callback) : State World unit :=
  match cb with
  | update_clock_cb endtime => update_clock endtime
  end.

(** The clock page from load on: [run_clock] at clock value [start], then
    one turn of the timer loop at each of the [readings]. *)
Definition session (id endtime : string) (start : Z) (readings : list Z) : World :=
  exec (run_clock id endtime ;; host_run scheduled set_now run_callback readings)%state
       (page_load start).

End WithHost.

End Golf.

(** ** The countdown to 09/30 (self-invoking function of the second script) *)

Module Countdown.
Import JS.

Definition second : number := of_Z 1000.
Definition minute : number := (second * 60)%js.
Definition hour : number := (minute * 60)%js.
Definition day : number := (hour * 24)%js.

(** The local-time fields of the [Date] object made by [new Date()] at
    load: year, month counted from 0, day of the month, and the
    milliseconds elapsed since local midnight. *)
Record DateObj : Type := {
  FullYear : Z;
  Month : Z;
  DayOfMonth : Z;
  TimeWithinDay : Z
}.

Definition getFullYear (d : DateObj) : number := of_Z (FullYear d).
Definition getMonth (d : DateObj) : number := of_Z (Month d).
Definition getDate (d : DateObj) : number := of_Z (DayOfMonth d).

Definition well_formed (d : DateObj) : Prop :=
  0 <= Month d <= 11 /\
  1 <= DayOfMonth d <= DaysInMonth (InLeapYear (FullYear d)) (Month d) /\
  0 <= TimeWithinDay d < msPerDay.

(** The time value of the object, in a zone [tza] milliseconds east of
    UTC. *)
Definition getTime (tza : Z) (d : DateObj) : Z :=
  MakeDate (MakeDay (FullYear d) (Month d) (DayOfMonth d)) (TimeWithinDay d) - tza.

(** The interval callback, closed over [countDown]. *)
Inductive callback : Type :=
| tick_cb (countDown : number).

Inductive event : Type :=
| Tick (distance : number)
| Expire
| Cleared (h : option handle).

(** The page: the value of [new Date().getTime()] at the moment, the text
    of the elements [days], [hours], [minutes], [seconds] and [headline],
    the [display] style of [countdown] and [content], the interval table,
    the constant [x] ([None] until [setInterval] has returned) and the
    events so far. *)
Record World : Type := {
  now : Z;
  days_text : string;
  hours_text : string;
  minutes_text : string;
  seconds_text : string;
  headline_text : string;
  countdown_display : string;
  content_display : string;
  scheduled : timers callback;
  x : option handle;
  trace : list event
}.

Definition set_now (v : Z) (w : World) : World :=
  {| now := v; days_text := days_text w; hours_text := hours_text w;
     minutes_text := minutes_text w; seconds_text := seconds_text w;
     headline_text := headline_text w; countdown_display := countdown_display w;
     content_display := content_display w; scheduled := scheduled w;
     x := x w; trace := trace w |}.

Definition set_days_text (v : string) (w : World) : World :=
  {| now := now w; days_text := v; hours_text := hours_text w;
     minutes_text := minutes_text w; seconds_text := seconds_text w;
     headline_text := headline_text w; countdown_display := countdown_display w;
     content_display := content_display w; scheduled := scheduled w;
     x := x w; trace := trace w |}.

Definition set_hours_text (v : string) (w : World) : World :=
  {| now := now w; days_text := days_text w; hours_text := v;
     minutes_text := minutes_text w; seconds_text := seconds_text w;
     headline_text := headline_text w; countdown_display := countdown_display w;
     content_display := content_display w; scheduled := scheduled w;
     x := x w; trace := trace w |}.

Definition set_minutes_text (v : string) (w : World) : World :=
  {| now := now w; days_text := days_text w; hours_text := hours_text w;
     minutes_text := v; seconds_text := seconds_text w;
     headline_text := headline_text w; countdown_display := countdown_display w;
     content_display := content_display w; scheduled := scheduled w;
     x := x w; trace := trace w |}.

Definition set_seconds_text (v : string) (w : World) : World :=
  {| now := now w; days_text := days_text w; hours_text := hours_text w;
     minutes_text := minutes_text w; seconds_text := v;
     headline_text := headline_text w; countdown_display := countdown_display w;
     content_display := content_display w; scheduled := scheduled w;
     x := x w; trace := trace w |}.

Definition set_headline_text (v : string) (w : World) : World :=
  {| now := now w; days_text := days_text w; hours_text := hours_text w;
     minutes_text := minutes_text w; seconds_text := seconds_text w;
     headline_text := v; countdown_display := countdown_display w;
     content_display := content_display w; scheduled := scheduled w;
     x := x w; trace := trace w |}.

Definition set_countdown_display (v : string) (w : World) : World :=
  {| now := now w; days_text := days_text w; hours_text := hours_text w;
     minutes_text := minutes_text w; seconds_text := seconds_text w;
     headline_text := headline_text w; countdown_display := v;
     content_display := content_display w; scheduled := scheduled w;
     x := x w; trace := trace w |}.

Definition set_content_display (v : string) (w : World) : World :=
  {| now := now w; days_text := days_text w; hours_text := hours_text w;
     minutes_text := minutes_text w; seconds_text := seconds_text w;
     headline_text := headline_text w; countdown_display := countdown_display w;
     content_display := v; scheduled := scheduled w;
     x := x w; trace := trace w |}.

Definition set_scheduled (v : timers callback) (w : World) : World :=
  {| now := now w; days_text := days_text w; hours_text := hours_text w;
     minutes_text := minutes_text w; seconds_text := seconds_text w;
     headline_text := headline_text w; countdown_display := countdown_display w;
     content_display := content_display w; scheduled := v;
     x := x w; trace := trace w |}.

Definition set_x (v : option handle) (w : World) : World :=
  {| now := now w; days_text := days_text w; hours_text := hours_text w;
     minutes_text := minutes_text w; seconds_text := seconds_text w;
     headline_text := headline_text w; countdown_display := countdown_display w;
     content_display := content_display w; scheduled := scheduled w;
     x := v; trace := trace w |}.

Definition emit (e : event) (w : World) : World :=
  {| now := now w; days_text := days_text w; hours_text := hours_text w;
     minutes_text := minutes_text w; seconds_text := seconds_text w;
     headline_text := headline_text w; countdown_display := countdown_display w;
     content_display := content_display w; scheduled := scheduled w;
     x := x w; trace := (trace w ++ [e])%list |}.

(** The page as loaded at clock value [t]: the countdown panel shown, the
    content panel hidden, no interval. *)
Definition page_load (t : Z) : World :=
  {| now := t; days_text := ""; hours_text := ""; minutes_text := "";
     seconds_text := ""; headline_text := ""; countdown_display := "block";
     content_display := "none"; scheduled := no_timers; x := None;
     trace := [] |}.

Definition setInterval (cb : callback) (ms : Z) : State World handle :=
  fun w => let (h, t) := JS.setInterval cb ms (scheduled w) in (h, set_scheduled t w).

Definition clearInterval (h : option handle) : State World unit :=
  (modify (emit (Cleared h)) ;;
   modify (fun w => set_scheduled (JS.clearInterval h (scheduled w)) w))%state.

(** The deadline string: [dayMonth] followed by this year, or by next year
    when the string [today] is greater than the string [birthday]. *)
Definition birthday_string (today : DateObj) : string :=
  let dd := padStart 2 "0" (ToString (getDate today)) in
  let mm := padStart 2 "0" (ToString (getMonth today + 1)%js) in
  let yyyy := getFullYear today in
  let nextYear := (yyyy + 1)%js in
  let dayMonth := "09/30/" in
  let birthday := dayMonth ++ ToString yyyy in
  let today := (((mm ++ "/") ++ dd) ++ "/") ++ ToString yyyy in
  if string_gt today birthday then dayMonth ++ ToString nextYear else birthday.

(** The body of the interval callback. *)
Definition tick (countDown : number) : State World unit :=
  (current <- gets now ;;
   let distance := (countDown - of_Z current)%js in
   modify (emit (Tick distance)) ;;
   modify (set_days_text (ToString (Math_floor (distance / day)%js))) ;;
   modify (set_hours_text (ToString (Math_floor ((distance %% day) / hour)%js))) ;;
   modify (set_minutes_text (ToString (Math_floor ((distance %% hour) / minute)%js))) ;;
   modify (set_seconds_text (ToString (Math_floor ((distance %% minute) / second)%js))) ;;
   if (distance <? 0)%js
   then (modify (emit Expire) ;;
         modify (set_headline_text "It's my birthday!") ;;
         modify (set_countdown_display "none") ;;
         modify (set_content_display "block") ;;
         h <- gets x ;;
         clearInterval h)
   else ret tt)%state.

Definition run_callback (cb : callback) : State World unit :=
  match cb with
  | tick_cb countDown => tick countDown
  end.

Section WithHost.

(** The host's date parser, as used by [new Date(birthday)]. *)
Variable Date_parse : string -> number.

(** [new Date(birthday).getTime()]. *)
Definition countDown_of (today : DateObj) : number :=
  Date_parse (birthday_string today).

(** The self-invoking function, run with [new Date()] yielding [today]. *)
Definition countdown (today : DateObj) : State World unit :=
  (let countDown := countDown_of today in
   h <- setInterval (tick_cb countDown) 0 ;;
   modify (set_x (Some h)))%state.

(** The page from load on, in a zone [tza] milliseconds east of UTC: the
    function runs with [new Date()] yielding [today], then the timer loop
    turns at each of the [readings]. *)
Definition session (tza : Z) (today : DateObj) (readings : list Z) : World :=
  exec (countdown today ;; host_run scheduled set_now run_callback readings)%state
       (page_load (getTime tza today)).

End WithHost.

End Countdown.

(** ** The click and scroll handlers of both scripts *)

Module Page.
Import JS.

(** An element of the document, as far as the handlers look at it: its id,
    the names in its [class] attribute, its inline style and the [top] of
    its [offset()]. *)
Record element : Type := {
  ident : string;
  classes : list string;
  style : list (string * string);
  offset_top : number
}.

Definition set_classes (l : list string) (e : element) : element :=
  {| ident := ident e; classes := l; style := style e; offset_top := offset_top e |}.

Definition set_style (l : list (string * string)) (e : element) : element :=
  {| ident := ident e; classes := classes e; style := l; offset_top := offset_top e |}.

(** The window: what [$(document).scrollTop()] and [$(window).height()]
    return at the moment, and the elements in document order. *)
Record window : Type := {
  scrollTop : number;
  height : number;
  elements : list element
}.

Definition set_elements (l : list element) (w : window) : window :=
  {| scrollTop := scrollTop w; height := height w; elements := l |}.

(** The visitor scrolls the document to [y]. *)
Definition scroll_to (y : number) (w : window) : window :=
  {| scrollTop := y; height := height w; elements := elements w |}.

(** *** The class functions of jQuery, on one element *)

Definition hasClass (c : string) (e : element) : bool :=
  existsb (String.eqb c) (classes e).

Definition add_name (c : string) (e : element) : element :=
  if hasClass c e then e else set_classes (classes e ++ [c])%list e.

Definition remove_name (c : string) (e : element) : element :=
  set_classes (filter (fun k => negb (String.eqb c k)) (classes e)) e.

Definition toggle_name (c : string) (e : element) : element :=
  if hasClass c e then remove_name c e else add_name c e.

(** The names in the argument of [addClass], [removeClass] and
    [toggleClass]: the runs of characters between white space. *)
Definition is_space (c : ascii) : bool :=
  match c with
  | " "%char | "009"%char | "010"%char | "012"%char | "013"%char => true
  | _ => false
  end.

Fixpoint names_from (cur : string) (value : string) : list string :=
  match value with
  | EmptyString => if String.eqb cur "" then [] else [cur]
  | String c rest =>
      if is_space c
      then if String.eqb cur "" then names_from "" rest
           else cur :: names_from "" rest
      else names_from (cur ++ String c "") rest
  end.

Definition class_names (value : string) : list string := names_from "" value.

Definition addClass (value : string) (e : element) : element :=
  fold_left (fun e c => add_name c e) (class_names value) e.

Definition removeClass (value : string) (e : element) : element :=
  fold_left (fun e c => remove_name c e) (class_names value) e.

Definition toggleClass (value : string) (e : element) : element :=
  fold_left (fun e c => toggle_name c e) (class_names value) e.

(** [.css(name, value)]: the inline style property is set, replacing an
    earlier value. *)
Definition css (name value : string) (e : element) : element :=
  set_style ((name, value)
             :: filter (fun p => negb (String.eqb name (fst p))) (style e)) e.

Definition style_of (name : string) (e : element) : option string :=
  option_map snd (find (fun p => String.eqb name (fst p)) (style e)).

(** *** Selections *)

(** [$(".c")]: a class selects every element that has it. *)
Inductive selector : Type :=
| ByClass (c : string).

Definition matches (sel : selector) (e : element) : bool :=
  match sel with
  | ByClass c => hasClass c e
  end.

(** [$(sel).f(...)]: [f] is applied to every element that matches. *)
Definition each (sel : selector) (f : element -> element) (w : window) : window :=
  set_elements (map (fun e => if matches sel e then f e else e) (elements w)) w.

(** [$("#i").f(...)]: an id selects one element, the first in document
    order that has it; [f] is applied to that element, and to none when no
    element has the id. *)
Fixpoint first_with_id (i : string) (f : element -> element) (l : list element)
    : list element :=
  match l with
  | [] => []
  | e :: l' =>
      if String.eqb i (ident e) then f e :: l' else e :: first_with_id i f l'
  end.

Definition by_id (i : string) (f : element -> element) (w : window) : window :=
  set_elements (first_with_id i f (elements w)) w.

(** [a > b] on numbers. *)
Definition gt (a b : number) : bool := lt b a.

(** *** Handlers of [golf.js] *)

(** Click on [.toggle-main-wrapper] or [#toggle_close]. *)
Definition toggle_sidebar (w : window) : window :=
  by_id "sidebar" (toggleClass "open") w.

(** Click on a [.click-toggle] element. *)
Definition click_toggle (w : window) : window :=
  each (ByClass "click-toggle") (toggleClass "main") w.

(** Scroll of the document, in [golf.js] and in the second script alike:
    the loop over the [.fadein] elements. *)
Definition fadein_on_scroll (w : window) : window :=
  let pageTop := scrollTop w in
  let pageBottom := (pageTop + height w)%js in
  each (ByClass "fadein")
       (fun tag => if (offset_top tag <? pageBottom)%js
                   then addClass "visible" tag
                   else removeClass "visible" tag) w.

(** *** Handlers of the second script *)

(** Scroll of the window: the fixed menu. *)
Definition menu_on_scroll (w : window) : window :=
  let window_top := (scrollTop w + 1)%js in
  if gt window_top 100
  then each (ByClass "menu-item-wrapper2") (addClass "menu-fixed animated fadeInDown") w
  else each (ByClass "menu-item-wrapper2") (removeClass "menu-fixed animated fadeInDown") w.

(** Click on [.menu-btn]. *)
Definition menu_btn_click (w : window) : window :=
  each (ByClass "menu-btn") (css "visibility" "hidden")
       (each (ByClass "side-bar") (addClass "active") w).

(** Click on [.close-btn]. *)
Definition close_btn_click (w : window) : window :=
  each (ByClass "menu-btn") (css "visibility" "visible")
       (each (ByClass "side-bar") (removeClass "active") w).

Inductive click : Type :=
| MenuBtn
| CloseBtn.

Definition on_click (c : click) (w : window) : window :=
  match c with
  | MenuBtn => menu_btn_click w
  | CloseBtn => close_btn_click w
  end.

(** The clicks of a visit, one after the other. *)
Definition clicks (l : list click) (w : window) : window :=
  fold_left (fun w c => on_click c w) l w.

End Page.

(** ** Notions used to state the properties *)

Module Notions.
Import JS.

(** The number [a] has the rational value [q]. *)
Definition represents (a : number) (q : Q) : Prop :=
  exists x, a = Num x /\ (x == q)%Q.

(** The decomposition of a total of milliseconds as the specification
    words it, on integers; [mod] is read as the remainder that takes the
    sign of the total ([Z.rem]), which is the usual modulus on a total that
    is not negative. *)
Definition spec_days (total : Z) : Z := total / 86400000.
Definition spec_hours (total : Z) : Z := Z.rem total 86400000 / 3600000.
Definition spec_minutes (total : Z) : Z := Z.rem total 3600000 / 60000.
Definition spec_seconds (total : Z) : Z := Z.rem total 60000 / 1000.

(** A value below one hundred written with exactly two decimal digits. *)
Definition digit_char (n : Z) : ascii := ascii_of_N (Z.to_N (48 + n)).

Definition two_digits (n : Z) : string :=
  String (digit_char (n / 10)) (String (digit_char (n mod 10)) EmptyString).

Fixpoint below (P : Z -> bool) (n : nat) : bool :=
  match n with
  | O => true
  | S n' => P (Z.of_nat n') && below P n'
  end.

End Notions.

Module GolfNotions.
Import JS Golf.

(** What [time_remaining] returns when the clock reads [reading]. *)
Definition remaining_at (Date_parse : string -> number) (endtime : string)
    (reading : Z) : Remaining :=
  fst (time_remaining Date_parse endtime (page_load reading)).

(** The total rebuilt from the four fields with the factors of the
    specification. *)
Definition recombine (r : Remaining) : number :=
  (days r * 86400000 + hours r * 3600000 + minutes r * 60000 + seconds r * 1000)%js.

(** The interval that [run_clock] arms on a freshly loaded page. *)
Definition entry (endtime : string) : interval callback :=
  {| id := 1%nat; JS.callback := update_clock_cb endtime; delay := 1000 |}.

Definition running (endtime : string) (w : World) : Prop :=
  armed (scheduled w) = [entry endtime] /\ next_id (scheduled w) = 2%nat /\
  timeinterval w = Some 1%nat.

Definition stopped (w : World) : Prop :=
  armed (scheduled w) = [] /\ timeinterval w = Some 1%nat.

Definition expired (t : Remaining) : bool := (total t <=? 0)%js.

(** The events of the scheduled runs of [update_clock], one per reading up
    to the first that finds the deadline reached. *)
Fixpoint scheduled_trace (at_reading : Z -> Remaining) (readings : list Z) : list event :=
  match readings with
  | [] => []
  | r :: rs =>
      if expired (at_reading r)
      then [Tick (at_reading r); Cleared (Some 1%nat)]
      else Tick (at_reading r) :: scheduled_trace at_reading rs
  end.

Definition live_tick (e : event) : Prop :=
  exists t, e = Tick t /\ expired t = false.

(** What [time_remaining] returns for a deadline that does not parse. *)
Definition no_remaining : Remaining :=
  {| total := NaN; days := NaN; hours := NaN; minutes := NaN; seconds := NaN |}.

Definition spans (w : World) : string * string * string * string :=
  (days_span w, hours_span w, minutes_span w, seconds_span w).

End GolfNotions.

(** Inputs on which the scripts are run below. *)
Module Samples.
Import JS.

(** 29 September 2025, local midnight. *)
Definition eve : Countdown.DateObj :=
  {| Countdown.FullYear := 2025; Countdown.Month := 8;
     Countdown.DayOfMonth := 29; Countdown.TimeWithinDay := 0 |}.

(** 30 September 2025, ten in the morning, local time. *)
Definition the_day : Countdown.DateObj :=
  {| Countdown.FullYear := 2025; Countdown.Month := 8;
     Countdown.DayOfMonth := 30; Countdown.TimeWithinDay := 36000000 |}.

(** 1 October 2025, ten in the morning, local time. *)
Definition day_after : Countdown.DateObj :=
  {| Countdown.FullYear := 2025; Countdown.Month := 9;
     Countdown.DayOfMonth := 1; Countdown.TimeWithinDay := 36000000 |}.

Definition deadline : string := "2025-09-30T00:00:00Z".
Definition deadline_ms : Z := 1759190400000.
Definition hour_before : Z := Date_UTC 2025 8 29 23 0 0.
Definition month_before : Z := Date_UTC 2025 7 30 0 0 0.
Definition half_second_deadline : string := "1970-01-01T00:00:01.500Z".
Definition unparsable : string := "soon".

End Samples.

Module CountdownNotions.
Import JS Countdown.

(** The interval that the function arms on a freshly loaded page. *)
Definition entry (countDown : number) : interval callback :=
  {| id := 1%nat; JS.callback := tick_cb countDown; delay := 0 |}.

Definition running (countDown : number) (w : World) : Prop :=
  armed (scheduled w) = [entry countDown] /\ x w = Some 1%nat.

Definition stopped (w : World) : Prop :=
  armed (scheduled w) = [] /\ x w = Some 1%nat.

(** The [distance] a tick computes when the clock reads [reading]. *)
Definition distance_at (countDown : number) (reading : Z) : number :=
  (countDown - of_Z reading)%js.

Definition expired (distance : number) : bool := (distance <? 0)%js.

(** The events of the ticks, one per reading up to the first that finds
    the deadline passed. *)
Fixpoint scheduled_trace (countDown : number) (readings : list Z) : list event :=
  match readings with
  | [] => []
  | r :: rs =>
      if expired (distance_at countDown r)
      then [Tick (distance_at countDown r); Expire; Cleared (Some 1%nat)]
      else Tick (distance_at countDown r) :: scheduled_trace countDown rs
  end.

Definition live_tick (e : event) : Prop :=
  exists d, e = Tick d /\ expired d = false.

(** The host reads [dayMonth] followed by [year] as the local midnight
    that begins 30 September of that year. *)
Definition reads_september_30 (Date_parse : string -> number) (tza year : Z) : Prop :=
  Date_parse ("09/30/" ++ ToString (of_Z year)) =
  of_Z (MakeDate (MakeDay year 8 30) 0 - tza).

(** Month [m] (from 0) and day [d] fall after 30 September. *)
Definition after_september_30 (m d : Z) : bool :=
  (8 <? m) || ((m =? 8) && (30 <? d)).

(** The part of the string [today] that precedes the year. *)
Definition month_day_prefix (m d : Z) : string :=
  ((padStart 2 "0" (string_of_Z (m + 1)) ++ "/") ++ padStart 2 "0" (string_of_Z d)) ++ "/".

Definition prefix_agrees (m d : Z) : bool :=
  Nat.eqb (String.length (month_day_prefix m d)) 6 &&
  Bool.eqb (string_gt (month_day_prefix m d) "09/30/") (after_september_30 m d).

(** The text a tick leaves in the four elements. *)
Definition texts (w : World) : string * string * string * string :=
  (days_text w, hours_text w, minutes_text w, seconds_text w).

End CountdownNotions.

Module PageNotions.
Import JS Page.

(** [e'] is [e] with, at most, the class names in [names] added or removed. *)
Definition same_apart_from (names : list string) (e e' : element) : Prop :=
  ident e' = ident e /\ offset_top e' = offset_top e /\ style e' = style e /\
  forall c, ~ In c names -> hasClass c e' = hasClass c e.

(** What one click does to one element. *)
Definition element_after (c : click) (e : element) : element :=
  match c with
  | MenuBtn =>
      let e1 := if hasClass "side-bar" e then addClass "active" e else e in
      if hasClass "menu-btn" e1 then css "visibility" "hidden" e1 else e1
  | CloseBtn =>
      let e1 := if hasClass "side-bar" e then removeClass "active" e else e in
      if hasClass "menu-btn" e1 then css "visibility" "visible" e1 else e1
  end.

Definition fixed_names : list string := ["menu-fixed"; "animated"; "fadeInDown"].

(** [e1] is what a run of clicks can have made of [e]. *)
Definition reached_by_clicks (e e1 : element) : Prop :=
  ident e1 = ident e /\ offset_top e1 = offset_top e /\
  (forall c, c <> "active" -> hasClass c e1 = hasClass c e) /\
  (hasClass "side-bar" e = false -> hasClass "active" e1 = hasClass "active" e) /\
  (hasClass "menu-btn" e = false -> style e1 = style e).

Definition opens (c : click) : bool :=
  match c with
  | MenuBtn => true
  | CloseBtn => false
  end.

(** What the scroll handler does to one element when the bottom of the
    window is at [bottom]. *)
Definition fadein_element (bottom : number) (e : element) : element :=
  if hasClass "fadein" e
  then if (offset_top e <? bottom)%js
       then add_name "visible" e else remove_name "visible" e
  else e.

End PageNotions.

(** A window on which the handlers are run below. *)
Module PageSamples.
Import JS Page.

Definition tag (i : string) (names : list string) (top : Z) : element :=
  {| ident := i; classes := names; style := []; offset_top := of_Z top |}.

Definition viewport : window :=
  {| scrollTop := of_Z 100;
     height := of_Z 500;
     elements := [tag "sidebar" ["open"; "panel"] 0;
                  tag "menu" ["menu-item-wrapper2"; "animated"] 0;
                  tag "intro" ["fadein"] 300;
                  tag "news" ["fadein"; "visible"] 700;
                  tag "drawer" ["side-bar"] 0;
                  tag "burger" ["menu-btn"; "click-toggle"] 0] |}.

(** A page on which two elements carry the id [sidebar]. *)
Definition two_sidebars : window :=
  {| scrollTop := of_Z 0;
     height := of_Z 500;
     elements := [tag "menu" ["menu-item-wrapper2"] 0;
                  tag "sidebar" ["panel"] 20;
                  tag "sidebar" ["open"] 40] |}.

End PageSamples.

Module TimerNotions.
Import JS Notions.

(** The headline and the [display] of the two panels of the 09/30
    countdown. *)
Definition panels (w : Countdown.World) : string * string * string :=
  (Countdown.headline_text w, Countdown.countdown_display w,
   Countdown.content_display w).

(** What [update_clock] writes for an hours, minutes or seconds field [n]
    that is zero or negative. *)
Definition shown_after_deadline (n : Z) : string :=
  if n =? 0 then "00"
  else if -10 <? n then String "-" (String (digit_char (- n)) EmptyString)
  else two_digits (- n).

End TimerNotions.

(** * Properties *)

(** ** Sequencing *)

Lemma exec_seq {W A : Type} (m : State W A) (k : State W unit) (w : W) :
  exec (m ;; k)%state w = exec k (exec m w).
Proof. unfold exec, bind. destruct (m w). reflexivity. Qed.

(** ** Arithmetic of the host *)

Module NumberFacts.
Import JS Notions.

Lemma Qred_inject_Z (z : Z) : Qred (inject_Z z) = inject_Z z.
Proof.
  apply Qcanon.Qred_identity. simpl. apply Z.gcd_1_r.
Qed.

Lemma sub_of_Z (a b : Z) : sub (of_Z a) (of_Z b) = of_Z (a - b).
Proof.
  unfold sub, lift2, of_Z. f_equal.
  rewrite <- (Qred_inject_Z (a - b)). apply Qred_complete.
  unfold Qeq; simpl. lia.
Qed.

Lemma add_of_Z (a b : Z) : add (of_Z a) (of_Z b) = of_Z (a + b).
Proof.
  unfold add, lift2, of_Z. f_equal.
  rewrite <- (Qred_inject_Z (a + b)). apply Qred_complete.
  unfold Qeq; simpl. lia.
Qed.

Lemma mul_of_Z (a b : Z) : mul (of_Z a) (of_Z b) = of_Z (a * b).
Proof.
  unfold mul, lift2, of_Z. f_equal.
  rewrite <- (Qred_inject_Z (a * b)). apply Qred_complete.
  unfold Qeq; simpl. lia.
Qed.

Lemma Qtrunc_comp (x y : Q) : x == y -> Qtrunc x = Qtrunc y.
Proof.
  intros H. unfold Qtrunc, Qceiling. rewrite (Qleb_comp 0%Q 0%Q (Qeq_refl 0%Q) x y H).
  rewrite (Qfloor_comp x y H).
  assert (H' : (- x == - y)%Q) by (rewrite H; reflexivity).
  rewrite (Qfloor_comp _ _ H'). reflexivity.
Qed.

Lemma Qrem_comp (x x' y y' : Q) : x == x' -> y == y' -> Qrem x y == Qrem x' y'.
Proof.
  intros Hx Hy. unfold Qrem.
  assert (H : (x / y == x' / y')%Q) by (rewrite Hx, Hy; reflexivity).
  rewrite (Qtrunc_comp _ _ H), Hx, Hy. reflexivity.
Qed.

Lemma Qfloor_div_Z (r a : Z) : 0 < a -> Qfloor (inject_Z r / inject_Z a)%Q = r / a.
Proof.
  intros Ha. destruct a as [|p|p]; try lia.
  unfold Qdiv, Qinv, Qmult, inject_Z; simpl.
  rewrite Z.mul_1_r. reflexivity.
Qed.

Lemma Qle_bool_div_Z (t a : Z) : 0 < a -> Qle_bool 0%Q (inject_Z t / inject_Z a)%Q = (0 <=? t).
Proof.
  intros Ha. destruct a as [|p|p]; try lia.
  unfold Qle_bool, Qdiv, Qinv, Qmult, inject_Z; simpl.
  rewrite !Z.mul_1_r. reflexivity.
Qed.

Lemma Qtrunc_div_Z (t a : Z) : 0 < a -> Qtrunc (inject_Z t / inject_Z a)%Q = Z.quot t a.
Proof.
  intros Ha. unfold Qtrunc. rewrite Qle_bool_div_Z by assumption.
  destruct (Z.leb_spec 0 t) as [Ht|Ht].
  - rewrite Qfloor_div_Z by assumption. symmetry. apply Z.quot_div_nonneg; lia.
  - unfold Qceiling.
    assert (H : (- (inject_Z t / inject_Z a) == inject_Z (- t) / inject_Z a)%Q).
    { rewrite inject_Z_opp. field. intros E.
      apply (Qeq_bool_neq (inject_Z a) 0%Q); [|exact E].
      destruct a; try lia; reflexivity. }
    rewrite (Qfloor_comp _ _ H), Qfloor_div_Z by assumption.
    rewrite <- (Z.quot_div_nonneg (- t) a) by lia.
    rewrite Z.quot_opp_l by lia. lia.
Qed.

Lemma inject_Z_nonzero (a : Z) : 0 < a -> ~ (inject_Z a == 0)%Q.
Proof.
  intros Ha E. unfold Qeq in E; simpl in E. lia.
Qed.

Lemma Qeq_bool_inject_Z_pos (a : Z) : 0 < a -> Qeq_bool (inject_Z a) 0 = false.
Proof.
  intros Ha. destruct (Qeq_bool (inject_Z a) 0) eqn:E; [|reflexivity].
  apply Qeq_bool_eq in E. exfalso. exact (inject_Z_nonzero a Ha E).
Qed.

Lemma represents_of_Z (z : Z) : represents (of_Z z) (inject_Z z).
Proof. exists (inject_Z z). split; reflexivity. Qed.

Lemma represents_eq (a : number) (p q : Q) :
  represents a p -> (p == q)%Q -> represents a q.
Proof.
  intros (x & -> & Hx) H. exists x. split; [reflexivity|]. rewrite Hx. exact H.
Qed.

Lemma represents_div (a : number) (p : Q) (c : Z) :
  represents a p -> 0 < c -> represents (div a (of_Z c)) (p / inject_Z c).
Proof.
  intros (x & -> & Hx) Hc. unfold div, of_Z.
  rewrite Qeq_bool_inject_Z_pos by assumption.
  eexists. split; [reflexivity|]. rewrite Qred_correct, Hx. reflexivity.
Qed.

Lemma represents_rem (a : number) (p : Q) (c : Z) :
  represents a p -> 0 < c -> represents (rem a (of_Z c)) (Qrem p (inject_Z c)).
Proof.
  intros (x & -> & Hx) Hc. unfold rem, of_Z.
  rewrite Qeq_bool_inject_Z_pos by assumption.
  eexists. split; [reflexivity|]. rewrite Qred_correct.
  apply Qrem_comp; [exact Hx | reflexivity].
Qed.

Lemma floor_represents (a : number) (p : Q) :
  represents a p -> Math_floor a = of_Z (Qfloor p).
Proof.
  intros (x & -> & Hx). simpl. rewrite (Qfloor_comp _ _ Hx). reflexivity.
Qed.

(** [%] then [floor] on a quotient of integers, in integer arithmetic. *)
Lemma Qrem_div_Z (t k m : Z) :
  0 < k -> 0 < m ->
  (Qrem (inject_Z t / inject_Z k) (inject_Z m) == inject_Z (Z.rem t (k * m)) / inject_Z k)%Q.
Proof.
  intros Hk Hm. unfold Qrem.
  assert (E : ((inject_Z t / inject_Z k) / inject_Z m == inject_Z t / inject_Z (k * m))%Q).
  { rewrite inject_Z_mult. field.
    split; [apply inject_Z_nonzero; assumption | apply inject_Z_nonzero; assumption]. }
  rewrite (Qtrunc_comp _ _ E), Qtrunc_div_Z by lia.
  assert (R : Z.rem t (k * m) = t - (k * m) * Z.quot t (k * m)).
  { pose proof (Z.quot_rem' t (k * m)). lia. }
  rewrite R. unfold Z.sub. rewrite inject_Z_plus, inject_Z_opp, !inject_Z_mult. field.
  apply inject_Z_nonzero; assumption.
Qed.

Lemma floor_div_Z (t c : Z) :
  0 < c -> Math_floor (div (of_Z t) (of_Z c)) = of_Z (t / c).
Proof.
  intros Hc.
  rewrite (floor_represents _ _ (represents_div _ _ c (represents_of_Z t) Hc)).
  rewrite Qfloor_div_Z by assumption. reflexivity.
Qed.

Lemma floor_rem_of_quotient (a : number) (t k m : Z) :
  represents a (inject_Z t / inject_Z k) -> 0 < k -> 0 < m ->
  Math_floor (rem a (of_Z m)) = of_Z (Z.rem t (k * m) / k).
Proof.
  intros Ha Hk Hm.
  rewrite (floor_represents _ _ (represents_rem _ _ m Ha Hm)).
  rewrite (Qfloor_comp _ _ (Qrem_div_Z t k m Hk Hm)).
  rewrite Qfloor_div_Z by assumption. reflexivity.
Qed.

Lemma floor_quotient_of_rem (t k m : Z) :
  0 < k -> 0 < m ->
  Math_floor (div (rem (of_Z t) (of_Z k)) (of_Z m)) = of_Z (Z.rem t k / m).
Proof.
  intros Hk Hm.
  assert (H1 : represents (of_Z t) (inject_Z t / inject_Z 1)).
  { apply (represents_eq _ _ _ (represents_of_Z t)). field. }
  pose proof (represents_rem _ _ k H1 Hk) as H2.
  apply (fun H => represents_eq _ _ _ H (Qrem_div_Z t 1 k ltac:(lia) Hk)) in H2.
  replace (1 * k) with k in H2 by lia.
  assert (H3 : represents (rem (of_Z t) (of_Z k)) (inject_Z (Z.rem t k))).
  { apply (represents_eq _ _ _ H2). field. }
  rewrite (floor_represents _ _ (represents_div _ _ m H3 Hm)).
  rewrite Qfloor_div_Z by assumption. reflexivity.
Qed.


Lemma ToString_of_Z (z : Z) : ToString (of_Z z) = string_of_Z z.
Proof.
  unfold ToString, of_Z, is_integral. rewrite Qfloor_Z.
  rewrite (proj2 (Qeq_bool_iff _ _) (Qeq_refl _)). reflexivity.
Qed.

Lemma floor_is_integral (a : number) :
  Math_floor a = NaN \/ exists z : Z, Math_floor a = of_Z z.
Proof.
  destruct a as [|x]; simpl; [left; reflexivity | right; eexists; reflexivity].
Qed.

Lemma below_spec (P : Z -> bool) (n : nat) :
  below P n = true -> forall z, 0 <= z < Z.of_nat n -> P z = true.
Proof.
  induction n as [|n IH]; simpl; intros H z Hz; [lia|].
  apply andb_prop in H. destruct H as [H1 H2].
  destruct (Z.eq_dec z (Z.of_nat n)) as [->|Hne]; [exact H1|].
  apply IH; [exact H2 | lia].
Qed.

Lemma slice_two_digits (z : Z) :
  0 <= z < 100 -> slice (-2) ("0" ++ ToString (of_Z z)) = two_digits z.
Proof.
  intros Hz. rewrite ToString_of_Z.
  apply String.eqb_eq.
  apply (below_spec (fun z => String.eqb (slice (-2) ("0" ++ string_of_Z z)) (two_digits z))
                    100); [vm_compute; reflexivity | exact Hz].
Qed.

End NumberFacts.

(** ** [golf.js] *)

Module GolfFacts.
Import JS Notions NumberFacts Golf GolfNotions.

Section WithHost.
Variable Date_parse : string -> number.

Lemma time_remaining_pure (endtime : string) (w : World) :
  time_remaining Date_parse endtime w = (remaining_at Date_parse endtime (now w), w).
Proof. reflexivity. Qed.

Lemma update_clock_exec (endtime : string) (w : World) :
  let t := remaining_at Date_parse endtime (now w) in
  let w1 := set_seconds_span (slice (-2) ("0" ++ ToString (seconds t)))
             (set_minutes_span (slice (-2) ("0" ++ ToString (minutes t)))
               (set_hours_span (slice (-2) ("0" ++ ToString (hours t)))
                 (set_days_span (ToString (days t)) (emit (Tick t) w)))) in
  exec (update_clock Date_parse endtime) w =
  if expired t
  then set_scheduled (JS.clearInterval (timeinterval w) (scheduled w))
         (emit (Cleared (timeinterval w)) w1)
  else w1.
Proof.
  intros t w1. unfold exec, update_clock, bind. rewrite time_remaining_pure.
  fold t. unfold expired. destruct (total t <=? 0)%js; reflexivity.
Qed.

Lemma remaining_at_parsed (endtime : string) (d reading : Z) :
  Date_parse endtime = of_Z d ->
  remaining_at Date_parse endtime reading =
  {| total := of_Z (d - reading);
     days := of_Z (spec_days (d - reading));
     hours := of_Z (spec_hours (d - reading));
     minutes := of_Z (spec_minutes (d - reading));
     seconds := of_Z (spec_seconds (d - reading)) |}.
Proof.
  intros Hd. unfold remaining_at, time_remaining, bind, gets, ret. simpl.
  rewrite Hd, sub_of_Z. set (t := d - reading).
  assert (R1 : represents (of_Z t / 1000)%js (inject_Z t / inject_Z 1000)).
  { apply represents_div; [apply represents_of_Z | lia]. }
  assert (R2 : represents (of_Z t / 1000 / 60)%js (inject_Z t / inject_Z 60000)).
  { apply (represents_eq _ (inject_Z t / inject_Z 1000 / inject_Z 60)).
    - apply represents_div; [exact R1 | lia].
    - change (inject_Z 60000) with (inject_Z (1000 * 60)).
      rewrite inject_Z_mult. field. }
  f_equal.
  - apply (floor_div_Z t 86400000). lia.
  - apply (floor_rem_of_quotient _ t 3600000 24); [|lia|lia].
    apply (represents_div _ _ 3600000); [apply represents_of_Z | lia].
  - apply (floor_rem_of_quotient _ t 60000 60); [exact R2|lia|lia].
  - apply (floor_rem_of_quotient _ t 1000 60); [exact R1|lia|lia].
Qed.

Lemma remaining_at_unparsed (endtime : string) (reading : Z) :
  Date_parse endtime = NaN ->
  remaining_at Date_parse endtime reading =
  {| total := NaN; days := NaN; hours := NaN; minutes := NaN; seconds := NaN |}.
Proof.
  intros Hd. unfold remaining_at, time_remaining, bind, gets, ret. simpl.
  rewrite Hd. reflexivity.
Qed.

Lemma expired_parsed (endtime : string) (d reading : Z) :
  Date_parse endtime = of_Z d ->
  expired (remaining_at Date_parse endtime reading) = (d <=? reading).
Proof.
  intros Hd. rewrite (remaining_at_parsed _ _ _ Hd). unfold expired. simpl.
  unfold Qle_bool. simpl. rewrite Z.mul_1_r.
  destruct (Z.leb_spec (d - reading) 0), (Z.leb_spec d reading); lia || reflexivity.
Qed.

(** *** The timer *)

Lemma run_clock_exec (id endtime : string) (start : Z) :
  let t := remaining_at Date_parse endtime start in
  let w := exec (run_clock Date_parse id endtime) (page_load start) in
  running endtime w /\ now w = start /\
  trace w = Tick t :: (if expired t then [Cleared None] else []).
Proof.
  intros t w. subst w. unfold run_clock, exec, bind. simpl.
  pose proof (update_clock_exec endtime (set_timeinterval None (page_load start))) as U.
  unfold exec in U. simpl in U. fold t in U.
  destruct (update_clock Date_parse endtime (set_timeinterval None (page_load start)))
    as [[] w1]. simpl in U. subst w1.
  destruct (expired t); simpl; repeat split.
Qed.

Lemma host_tick_running (endtime : string) (reading : Z) (w : World) :
  running endtime w ->
  let t := remaining_at Date_parse endtime reading in
  let w' := exec (host_tick scheduled set_now (run_callback Date_parse) reading) w in
  now w' = reading /\
  if expired t
  then stopped w' /\ trace w' = (trace w ++ [Tick t; Cleared (Some 1%nat)])%list
  else running endtime w' /\ trace w' = (trace w ++ [Tick t])%list.
Proof.
  intros (Ha & Hn & Ht) t w'. subst w'.
  unfold host_tick, exec, bind, modify, gets. simpl. rewrite Ha. simpl.
  unfold bind, gets, is_armed, lookup. simpl. rewrite Ha. simpl.
  pose proof (update_clock_exec endtime (set_now reading w)) as U.
  unfold exec in U. simpl in U. fold t in U.
  destruct (update_clock Date_parse endtime (set_now reading w)) as [[] w1].
  simpl in U. subst w1. unfold ret. simpl.
  destruct (expired t); simpl.
  - rewrite Ht. unfold stopped. simpl. rewrite Ha. simpl.
    rewrite <- app_assoc. repeat split; assumption.
  - repeat split; assumption.
Qed.

Lemma host_tick_stopped (reading : Z) (w : World) :
  stopped w ->
  let w' := exec (host_tick scheduled set_now (run_callback Date_parse) reading) w in
  stopped w' /\ trace w' = trace w.
Proof.
  intros (Ha & Ht) w'. subst w'.
  unfold host_tick, exec, bind, modify, gets. simpl. rewrite Ha. simpl.
  repeat split; assumption.
Qed.

Lemma host_run_stopped (readings : list Z) (w : World) :
  stopped w ->
  let w' := exec (host_run scheduled set_now (run_callback Date_parse) readings) w in
  stopped w' /\ trace w' = trace w.
Proof.
  revert w. induction readings as [|r rs IH]; intros w Hw; simpl.
  - split; [exact Hw | reflexivity].
  - rewrite exec_seq.
    destruct (host_tick_stopped r w Hw) as [H1 H2].
    destruct (IH _ H1) as [H3 H4]. split; [exact H3 | congruence].
Qed.

Lemma host_run_running (endtime : string) (readings : list Z) (w : World) :
  running endtime w ->
  let at_reading := remaining_at Date_parse endtime in
  let w' := exec (host_run scheduled set_now (run_callback Date_parse) readings) w in
  trace w' = (trace w ++ scheduled_trace at_reading readings)%list /\
  if existsb (fun r => expired (at_reading r)) readings
  then stopped w' else running endtime w'.
Proof.
  revert w. induction readings as [|r rs IH]; intros w Hw; simpl.
  - rewrite app_nil_r. split; [reflexivity | exact Hw].
  - rewrite exec_seq.
    destruct (host_tick_running endtime r w Hw) as [_ H].
    destruct (expired (remaining_at Date_parse endtime r)); simpl.
    + destruct H as [H1 H2].
      destruct (host_run_stopped rs _ H1) as [H3 H4].
      split; [congruence | exact H3].
    + destruct H as [H1 H2].
      destruct (IH _ H1) as [H3 H4]. simpl in H3, H4.
      split; [|exact H4].
      rewrite H3, H2, <- app_assoc. reflexivity.
Qed.

Lemma scheduled_trace_expiry (at_reading : Z -> Remaining) (readings : list Z)
    (pre post : list event) (t : Remaining) :
  scheduled_trace at_reading readings = (pre ++ Tick t :: post)%list ->
  expired t = true ->
  post = [Cleared (Some 1%nat)] /\ Forall live_tick pre /\
  existsb (fun r => expired (at_reading r)) readings = true.
Proof.
  revert pre. induction readings as [|r rs IH]; intros pre H Ht; simpl in *.
  - destruct pre; discriminate.
  - destruct (expired (at_reading r)) eqn:E; simpl.
    + destruct pre as [|e1 [|e2 pre]]; simpl in H.
      * injection H as _ <-. repeat split. constructor.
      * discriminate.
      * injection H as _ _ H. destruct pre; discriminate.
    + destruct pre as [|e1 pre]; simpl in H.
      * injection H as <- _. congruence.
      * injection H as <- H. destruct (IH pre H Ht) as (H1 & H2 & H3).
        repeat split; try assumption.
        constructor; [|exact H2]. exists (at_reading r). split; [reflexivity | exact E].
Qed.

Lemma session_trace (id endtime : string) (start : Z) (readings : list Z) :
  let at_reading := remaining_at Date_parse endtime in
  let w := session Date_parse id endtime start readings in
  trace w = (trace (exec (run_clock Date_parse id endtime) (page_load start))
             ++ scheduled_trace at_reading readings)%list /\
  if existsb (fun r => expired (at_reading r)) readings
  then stopped w else running endtime w.
Proof.
  intros at_reading w. subst w. unfold session. rewrite exec_seq.
  destruct (run_clock_exec id endtime start) as (Hr & _ & _).
  exact (host_run_running endtime readings _ Hr).
Qed.

End WithHost.
End GolfFacts.

(** ** The countdown to 09/30 *)

Module CountdownFacts.
Import JS Notions NumberFacts Countdown CountdownNotions.

Lemma tick_exec (countDown : number) (w : World) :
  let distance := distance_at countDown (now w) in
  let w1 := set_seconds_text (ToString (Math_floor ((distance %% minute) / second)%js))
             (set_minutes_text (ToString (Math_floor ((distance %% hour) / minute)%js))
               (set_hours_text (ToString (Math_floor ((distance %% day) / hour)%js))
                 (set_days_text (ToString (Math_floor (distance / day)%js))
                   (emit (Tick distance) w)))) in
  exec (tick countDown) w =
  if expired distance
  then set_scheduled (JS.clearInterval (x w) (scheduled w))
         (emit (Cleared (x w))
           (set_content_display "block"
             (set_countdown_display "none"
               (set_headline_text "It's my birthday!" (emit Expire w1)))))
  else w1.
Proof.
  intros distance w1. unfold exec, tick, bind, gets. simpl.
  fold (distance_at countDown (now w)). fold distance. unfold expired.
  destruct (distance <? 0)%js; reflexivity.
Qed.

Lemma tick_texts (c : Z) (w : World) :
  let total := c - now w in
  texts (exec (tick (of_Z c)) w) =
  (string_of_Z (spec_days total), string_of_Z (spec_hours total),
   string_of_Z (spec_minutes total), string_of_Z (spec_seconds total)).
Proof.
  intros total. rewrite tick_exec. unfold distance_at. rewrite sub_of_Z. fold total.
  assert (E : texts (set_seconds_text (ToString (Math_floor ((of_Z total %% minute) / second)%js))
             (set_minutes_text (ToString (Math_floor ((of_Z total %% hour) / minute)%js))
               (set_hours_text (ToString (Math_floor ((of_Z total %% day) / hour)%js))
                 (set_days_text (ToString (Math_floor (of_Z total / day)%js))
                   (emit (Tick (of_Z total)) w))))) =
           (string_of_Z (spec_days total), string_of_Z (spec_hours total),
            string_of_Z (spec_minutes total), string_of_Z (spec_seconds total))).
  { unfold texts.
    cbn [days_text hours_text minutes_text seconds_text set_seconds_text
         set_minutes_text set_hours_text set_days_text emit].
    change day with (of_Z 86400000). change hour with (of_Z 3600000).
    change minute with (of_Z 60000). change second with (of_Z 1000).
    rewrite (floor_div_Z total 86400000) by lia.
    rewrite (floor_quotient_of_rem total 86400000 3600000) by lia.
    rewrite (floor_quotient_of_rem total 3600000 60000) by lia.
    rewrite (floor_quotient_of_rem total 60000 1000) by lia.
    rewrite !ToString_of_Z. reflexivity. }
  destruct (expired (of_Z total)); [|exact E].
  unfold texts in *. simpl in *. exact E.
Qed.

Lemma expired_of_Z (c reading : Z) :
  expired (distance_at (of_Z c) reading) = (c <? reading).
Proof.
  unfold distance_at. rewrite sub_of_Z. unfold expired. simpl.
  unfold Qle_bool. simpl. rewrite Z.mul_1_r.
  destruct (Z.leb_spec 0 (c - reading)), (Z.ltb_spec c reading); lia || reflexivity.
Qed.

(** *** The timer *)

Lemma countdown_exec (Date_parse : string -> number) (today : DateObj) (start : Z) :
  let w := exec (countdown Date_parse today) (page_load start) in
  running (countDown_of Date_parse today) w /\ trace w = [].
Proof.
  intros w. subst w. unfold countdown, exec, bind. simpl. repeat split.
Qed.

Lemma tick_turn_running (countDown : number) (reading : Z) (w : World) :
  running countDown w ->
  let d := distance_at countDown reading in
  let w' := exec (host_tick scheduled set_now run_callback reading) w in
  if expired d
  then stopped w' /\ trace w' = (trace w ++ [Tick d; Expire; Cleared (Some 1%nat)])%list
  else running countDown w' /\ trace w' = (trace w ++ [Tick d])%list.
Proof.
  intros (Ha & Hx) d w'. subst w'.
  unfold host_tick, exec, bind, modify, gets. simpl. rewrite Ha. simpl.
  unfold bind, gets, is_armed, lookup. simpl. rewrite Ha. simpl.
  pose proof (tick_exec countDown (set_now reading w)) as U.
  unfold exec in U. simpl in U. fold d in U.
  destruct (tick countDown (set_now reading w)) as [[] w1].
  simpl in U. subst w1. unfold ret. simpl.
  destruct (expired d); simpl.
  - rewrite Hx. unfold stopped. simpl. rewrite Ha. simpl.
    rewrite <- !app_assoc. repeat split; assumption.
  - repeat split; assumption.
Qed.

Lemma tick_turn_stopped (reading : Z) (w : World) :
  stopped w ->
  let w' := exec (host_tick scheduled set_now run_callback reading) w in
  stopped w' /\ trace w' = trace w.
Proof.
  intros (Ha & Hx) w'. subst w'.
  unfold host_tick, exec, bind, modify, gets. simpl. rewrite Ha. simpl.
  repeat split; assumption.
Qed.

Lemma ticks_once_stopped (readings : list Z) (w : World) :
  stopped w ->
  let w' := exec (host_run scheduled set_now run_callback readings) w in
  stopped w' /\ trace w' = trace w.
Proof.
  revert w. induction readings as [|r rs IH]; intros w Hw; simpl.
  - split; [exact Hw | reflexivity].
  - rewrite exec_seq.
    destruct (tick_turn_stopped r w Hw) as [H1 H2].
    destruct (IH _ H1) as [H3 H4]. split; [exact H3 | congruence].
Qed.

Lemma ticks_while_running (countDown : number) (readings : list Z) (w : World) :
  running countDown w ->
  let w' := exec (host_run scheduled set_now run_callback readings) w in
  trace w' = (trace w ++ scheduled_trace countDown readings)%list /\
  if existsb (fun r => expired (distance_at countDown r)) readings
  then stopped w' else running countDown w'.
Proof.
  revert w. induction readings as [|r rs IH]; intros w Hw; simpl.
  - rewrite app_nil_r. split; [reflexivity | exact Hw].
  - rewrite exec_seq.
    pose proof (tick_turn_running countDown r w Hw) as H. simpl in H.
    destruct (expired (distance_at countDown r)); simpl.
    + destruct H as [H1 H2].
      destruct (ticks_once_stopped rs _ H1) as [H3 H4].
      split; [congruence | exact H3].
    + destruct H as [H1 H2].
      destruct (IH _ H1) as [H3 H4]. simpl in H3, H4.
      split; [|exact H4].
      rewrite H3, H2, <- app_assoc. reflexivity.
Qed.

Lemma tick_trace_expiry (countDown : number) (readings : list Z)
    (pre post : list event) (d : number) :
  scheduled_trace countDown readings = (pre ++ Tick d :: post)%list ->
  expired d = true ->
  post = [Expire; Cleared (Some 1%nat)] /\ Forall live_tick pre /\
  existsb (fun r => expired (distance_at countDown r)) readings = true.
Proof.
  revert pre. induction readings as [|r rs IH]; intros pre H Hd; simpl in *.
  - destruct pre; discriminate.
  - destruct (expired (distance_at countDown r)) eqn:E; simpl.
    + destruct pre as [|e1 [|e2 [|e3 pre]]]; simpl in H.
      * injection H as _ <-. repeat split. constructor.
      * discriminate.
      * discriminate.
      * injection H as _ _ _ H. destruct pre; discriminate.
    + destruct pre as [|e1 pre]; simpl in H.
      * injection H as <- _. congruence.
      * injection H as <- H. destruct (IH pre H Hd) as (H1 & H2 & H3).
        repeat split; try assumption.
        constructor; [|exact H2].
        exists (distance_at countDown r). split; [reflexivity | exact E].
Qed.

Lemma countdown_session_trace (Date_parse : string -> number) (tza : Z) (today : DateObj)
    (readings : list Z) :
  let countDown := countDown_of Date_parse today in
  let w := session Date_parse tza today readings in
  trace w = scheduled_trace countDown readings /\
  if existsb (fun r => expired (distance_at countDown r)) readings
  then stopped w else running countDown w.
Proof.
  intros countDown w. subst w. unfold session. rewrite exec_seq.
  destruct (countdown_exec Date_parse today (getTime tza today)) as (Hr & Ht).
  pose proof (ticks_while_running countDown readings _ Hr) as H.
  cbv zeta in H. rewrite Ht in H. exact H.
Qed.

End CountdownFacts.

(** ** The duration computed by both scripts *)

Section Decomposition.
Import JS Notions NumberFacts GolfNotions.
Local Open Scope Z_scope.

Lemma spec_fields_bounds (total : Z) :
  0 <= total ->
  0 <= spec_days total /\ 0 <= spec_hours total < 24 /\
  0 <= spec_minutes total < 60 /\ 0 <= spec_seconds total < 60.
Proof.
  intros H. unfold spec_days, spec_hours, spec_minutes, spec_seconds.
  rewrite !Z.rem_mod_nonneg by lia.
  repeat split; Z.div_mod_to_equations; lia.
Qed.

Lemma spec_fields_recombine (total : Z) :
  0 <= total ->
  spec_days total * 86400000 + spec_hours total * 3600000 +
  spec_minutes total * 60000 + spec_seconds total * 1000 = total - total mod 1000.
Proof.
  intros H. unfold spec_days, spec_hours, spec_minutes, spec_seconds.
  rewrite !Z.rem_mod_nonneg by lia.
  Z.div_mod_to_equations. lia.
Qed.

(** C2.  For every deadline and clock reading, the [days], [hours],
    [minutes] and [seconds] that [time_remaining] returns are
    [floor(total / 86400000)], [floor((total mod 86400000) / 3600000)],
    [floor((total mod 3600000) / 60000)] and [floor((total mod 60000) / 1000)]
    of the signed difference [total] between the deadline and the reading,
    and the 09/30 countdown writes the same four values; [mod] takes the
    sign of [total], as the [%] of both scripts does. *)
Theorem remaining_fields_follow_formulas
    (Date_parse : string -> number) (endtime : string) (deadline : Z)
    (w : Golf.World) (cw : Countdown.World) :
  Date_parse endtime = of_Z deadline ->
  let r := fst (Golf.time_remaining Date_parse endtime w) in
  let total := deadline - Golf.now w in
  let distance := deadline - Countdown.now cw in
  (Golf.total r = of_Z total /\
   Golf.days r = of_Z (total / 86400000) /\
   Golf.hours r = of_Z (Z.rem total 86400000 / 3600000) /\
   Golf.minutes r = of_Z (Z.rem total 3600000 / 60000) /\
   Golf.seconds r = of_Z (Z.rem total 60000 / 1000)) /\
  CountdownNotions.texts (exec (Countdown.tick (of_Z deadline)) cw) =
  (string_of_Z (distance / 86400000),
   string_of_Z (Z.rem distance 86400000 / 3600000),
   string_of_Z (Z.rem distance 3600000 / 60000),
   string_of_Z (Z.rem distance 60000 / 1000)).
Proof.
  intros Hd r total distance. split.
  - subst r. rewrite GolfFacts.time_remaining_pure. simpl fst.
    rewrite (GolfFacts.remaining_at_parsed Date_parse endtime deadline _ Hd).
    repeat split.
  - exact (CountdownFacts.tick_texts deadline cw).
Qed.

Lemma remaining_fields_follow_formulas_witness :
  Golf.hours (fst (Golf.time_remaining Date_parse_iso Samples.deadline
                     (Golf.page_load Samples.hour_before))) =
  of_Z (Z.rem (Samples.deadline_ms - Samples.hour_before) 86400000 / 3600000).
Proof.
  exact (proj1 (proj2 (proj2 (proj1
    (remaining_fields_follow_formulas Date_parse_iso Samples.deadline
       Samples.deadline_ms (Golf.page_load Samples.hour_before)
       (Countdown.page_load Samples.hour_before) eq_refl))))).
Defined.

Lemma recombine_parsed (Date_parse : string -> number) (endtime : string)
    (deadline reading : Z) :
  Date_parse endtime = of_Z deadline ->
  let total := deadline - reading in
  recombine (remaining_at Date_parse endtime reading) =
  of_Z (spec_days total * 86400000 + spec_hours total * 3600000 +
        spec_minutes total * 60000 + spec_seconds total * 1000).
Proof.
  intros Hd total.
  rewrite (GolfFacts.remaining_at_parsed Date_parse endtime deadline reading Hd).
  unfold recombine. cbn [Golf.days Golf.hours Golf.minutes Golf.seconds].
  fold total. rewrite !mul_of_Z, !add_of_Z. reflexivity.
Qed.

(** C3, as the code has it.  When the reading is not after the deadline,
    the four fields are not negative, and rebuilding a total from them
    gives the total rounded down to a whole second: the milliseconds below
    one second are in no field.  The rebuilt total is the original one
    exactly when the total is a whole number of seconds. *)
Theorem roundtrip_to_the_second
    (Date_parse : string -> number) (endtime : string) (deadline : Z)
    (w : Golf.World) :
  Date_parse endtime = of_Z deadline ->
  Golf.now w <= deadline ->
  let r := fst (Golf.time_remaining Date_parse endtime w) in
  let total := deadline - Golf.now w in
  (exists D H M S : Z,
      Golf.days r = of_Z D /\ Golf.hours r = of_Z H /\
      Golf.minutes r = of_Z M /\ Golf.seconds r = of_Z S /\
      0 <= D /\ 0 <= H /\ 0 <= M /\ 0 <= S) /\
  recombine r = of_Z (total - total mod 1000) /\
  (total mod 1000 = 0 -> recombine r = Golf.total r) /\
  (forall cw : Countdown.World,
      Countdown.now cw <= deadline ->
      let distance := deadline - Countdown.now cw in
      exists D H M S : Z,
        CountdownNotions.texts (exec (Countdown.tick (of_Z deadline)) cw) =
        (string_of_Z D, string_of_Z H, string_of_Z M, string_of_Z S) /\
        0 <= D /\ 0 <= H /\ 0 <= M /\ 0 <= S /\
        D * 86400000 + H * 3600000 + M * 60000 + S * 1000 =
        distance - distance mod 1000).
Proof.
  intros Hd Hle r total. subst r. rewrite GolfFacts.time_remaining_pure. simpl fst.
  assert (Ht : 0 <= total) by (unfold total; lia).
  pose proof (spec_fields_bounds total Ht) as (B1 & B2 & B3 & B4).
  assert (R : recombine (remaining_at Date_parse endtime (Golf.now w)) =
              of_Z (total - total mod 1000)).
  { rewrite (recombine_parsed Date_parse endtime deadline _ Hd). fold total.
    rewrite (spec_fields_recombine total Ht). reflexivity. }
  split; [|split; [|split]]; cycle 3.
  { intros cw Hcw distance.
    assert (Hdist : 0 <= distance) by (unfold distance; lia).
    pose proof (spec_fields_bounds distance Hdist) as (C1 & C2 & C3 & C4).
    exists (spec_days distance), (spec_hours distance), (spec_minutes distance),
           (spec_seconds distance).
    split; [exact (CountdownFacts.tick_texts deadline cw)|].
    repeat split; try lia. exact (spec_fields_recombine distance Hdist). }
  - rewrite (GolfFacts.remaining_at_parsed Date_parse endtime deadline _ Hd).
    fold total.
    exists (spec_days total), (spec_hours total), (spec_minutes total), (spec_seconds total).
    cbn [Golf.days Golf.hours Golf.minutes Golf.seconds].
    repeat split; lia.
  - exact R.
  - intros Hz. rewrite R.
    rewrite (GolfFacts.remaining_at_parsed Date_parse endtime deadline _ Hd).
    cbn [Golf.total]. fold total. rewrite Hz, Z.sub_0_r. reflexivity.
Qed.

Lemma roundtrip_to_the_second_witness :
  recombine (fst (Golf.time_remaining Date_parse_iso Samples.deadline
                    (Golf.page_load Samples.hour_before))) =
  of_Z ((Samples.deadline_ms - Samples.hour_before)
        - (Samples.deadline_ms - Samples.hour_before) mod 1000).
Proof.
  refine (proj1 (proj2
    (roundtrip_to_the_second Date_parse_iso Samples.deadline Samples.deadline_ms
       (Golf.page_load Samples.hour_before) eq_refl _))).
  vm_compute. discriminate.
Defined.

(** A deadline one and a half seconds after the reading: the fields are
    0, 0, 0 and 1 in both scripts, and they rebuild 1000 milliseconds, not
    1500. *)
Lemma roundtrip_loses_milliseconds :
  Date_parse_iso Samples.half_second_deadline = of_Z 1500 /\
  0 <= 1500 /\
  Golf.total (fst (Golf.time_remaining Date_parse_iso Samples.half_second_deadline
                     (Golf.page_load 0))) = of_Z 1500 /\
  recombine (fst (Golf.time_remaining Date_parse_iso Samples.half_second_deadline
                    (Golf.page_load 0))) = of_Z 1000 /\
  recombine (fst (Golf.time_remaining Date_parse_iso Samples.half_second_deadline
                    (Golf.page_load 0))) <>
  Golf.total (fst (Golf.time_remaining Date_parse_iso Samples.half_second_deadline
                     (Golf.page_load 0))) /\
  CountdownNotions.texts (exec (Countdown.tick (of_Z 1500)) (Countdown.page_load 0)) =
  ("0", "0", "0", "1").
Proof.
  repeat split; try (vm_compute; reflexivity); try lia.
  vm_compute. discriminate.
Qed.

(** C9.  The two worked examples: with the deadline 2025-09-30T00:00:00Z,
    a reading of 2025-09-29T23:00:00Z gives 0 days, 1 hour, 0 minutes and
    0 seconds, and a reading of 2025-08-30T00:00:00Z gives 31 days and 0
    hours, minutes and seconds. *)
Theorem worked_examples :
  (Date_parse_iso "2025-09-29T23:00:00Z" = of_Z Samples.hour_before /\
   Date_parse_iso "2025-08-30T00:00:00Z" = of_Z Samples.month_before) /\
  fst (Golf.time_remaining Date_parse_iso "2025-09-30T00:00:00Z"
         (Golf.page_load Samples.hour_before)) =
  {| Golf.total := of_Z 3600000; Golf.days := of_Z 0; Golf.hours := of_Z 1;
     Golf.minutes := of_Z 0; Golf.seconds := of_Z 0 |} /\
  fst (Golf.time_remaining Date_parse_iso "2025-09-30T00:00:00Z"
         (Golf.page_load Samples.month_before)) =
  {| Golf.total := of_Z 2678400000; Golf.days := of_Z 31; Golf.hours := of_Z 0;
     Golf.minutes := of_Z 0; Golf.seconds := of_Z 0 |}.
Proof.
  repeat split; vm_compute; reflexivity.
Qed.

End Decomposition.

(** ** What a tick writes *)

Section Display.
Import JS Notions NumberFacts GolfNotions.
Local Open Scope Z_scope.

Lemma update_clock_spans (Date_parse : string -> number) (endtime : string)
    (w : Golf.World) :
  let t := remaining_at Date_parse endtime (Golf.now w) in
  let w' := exec (Golf.update_clock Date_parse endtime) w in
  Golf.days_span w' = ToString (Golf.days t) /\
  Golf.hours_span w' = slice (-2) ("0" ++ ToString (Golf.hours t)) /\
  Golf.minutes_span w' = slice (-2) ("0" ++ ToString (Golf.minutes t)) /\
  Golf.seconds_span w' = slice (-2) ("0" ++ ToString (Golf.seconds t)).
Proof.
  intros t w'. subst w'. rewrite GolfFacts.update_clock_exec. fold t.
  destruct (expired t); repeat split.
Qed.

(** C6, as the code has it.  A run of [update_clock] of [golf.js] that
    finds the deadline not yet passed writes the hours, minutes and
    seconds with exactly two digits, zero-padded, and the days as they
    are; the 09/30 countdown writes all four values as they are. *)
Theorem display_strings
    (Date_parse : string -> number) (endtime : string) (deadline : Z)
    (w : Golf.World) (cw : Countdown.World) :
  Date_parse endtime = of_Z deadline ->
  Golf.now w <= deadline ->
  let w' := exec (Golf.update_clock Date_parse endtime) w in
  let total := deadline - Golf.now w in
  let distance := deadline - Countdown.now cw in
  (Golf.days_span w' = string_of_Z (spec_days total) /\
   Golf.hours_span w' = two_digits (spec_hours total) /\
   Golf.minutes_span w' = two_digits (spec_minutes total) /\
   Golf.seconds_span w' = two_digits (spec_seconds total)) /\
  CountdownNotions.texts (exec (Countdown.tick (of_Z deadline)) cw) =
  (string_of_Z (spec_days distance), string_of_Z (spec_hours distance),
   string_of_Z (spec_minutes distance), string_of_Z (spec_seconds distance)).
Proof.
  intros Hd Hle w' total distance. split.
  - pose proof (update_clock_spans Date_parse endtime w) as (S1 & S2 & S3 & S4).
    rewrite (GolfFacts.remaining_at_parsed Date_parse endtime deadline _ Hd) in S1, S2, S3, S4.
    cbn [Golf.days Golf.hours Golf.minutes Golf.seconds] in S1, S2, S3, S4.
    fold total in S1, S2, S3, S4. fold w' in S1, S2, S3, S4.
    assert (Ht : 0 <= total) by (unfold total; lia).
    pose proof (spec_fields_bounds total Ht) as (B1 & B2 & B3 & B4).
    rewrite S1, S2, S3, S4, ToString_of_Z.
    rewrite !slice_two_digits by lia. repeat split.
  - exact (CountdownFacts.tick_texts deadline cw).
Qed.

Lemma display_strings_witness :
  Golf.hours_span (exec (Golf.update_clock Date_parse_iso Samples.deadline)
                     (Golf.page_load Samples.hour_before)) =
  two_digits (spec_hours (Samples.deadline_ms - Samples.hour_before)).
Proof.
  refine (proj1 (proj2 (proj1
    (display_strings Date_parse_iso Samples.deadline Samples.deadline_ms
       (Golf.page_load Samples.hour_before)
       (Countdown.page_load Samples.hour_before) eq_refl _)))).
  vm_compute. discriminate.
Defined.

(** Five hours and seven seconds before its deadline the 09/30 countdown
    writes the hours as one digit; one second after its deadline
    [update_clock] writes a sign and a digit. *)
Lemma display_not_always_padded :
  (Countdown.hours_text (exec (Countdown.tick (of_Z 18007000)) (Countdown.page_load 0)) = "5" /\
   two_digits 5 = "05") /\
  (Date_parse_iso "1970-01-01T00:00:00Z" = of_Z 0 /\
   Golf.hours (fst (Golf.time_remaining Date_parse_iso "1970-01-01T00:00:00Z"
                      (Golf.page_load 1000))) = of_Z (-1) /\
   Golf.hours_span (exec (Golf.update_clock Date_parse_iso "1970-01-01T00:00:00Z")
                      (Golf.page_load 1000)) = "-1").
Proof.
  repeat split; vm_compute; reflexivity.
Qed.

End Display.

(** ** The life of the timers *)

Section Timers.
Import JS Notions NumberFacts.
Local Open Scope Z_scope.

Lemma golf_session_stops (Date_parse : string -> number) (id endtime : string)
    (deadline start r : Z) (readings : list Z) :
  Date_parse endtime = of_Z deadline ->
  In r readings -> deadline <= r ->
  armed (Golf.scheduled (Golf.session Date_parse id endtime start readings)) = [].
Proof.
  intros Hd Hin Hr.
  destruct (GolfFacts.session_trace Date_parse id endtime start readings) as [_ H].
  assert (E : existsb (fun r => GolfNotions.expired
                         (GolfNotions.remaining_at Date_parse endtime r)) readings = true).
  { apply existsb_exists. exists r. split; [exact Hin|].
    rewrite (GolfFacts.expired_parsed Date_parse endtime deadline r Hd).
    apply Z.leb_le. exact Hr. }
  rewrite E in H. exact (proj1 H).
Qed.

Lemma countdown_session_stops (Date_parse : string -> number) (tza : Z)
    (today : Countdown.DateObj) (deadline r : Z) (readings : list Z) :
  Countdown.countDown_of Date_parse today = of_Z deadline ->
  In r readings -> deadline < r ->
  armed (Countdown.scheduled (Countdown.session Date_parse tza today readings)) = [].
Proof.
  intros Hd Hin Hr.
  destruct (CountdownFacts.countdown_session_trace Date_parse tza today readings) as [_ H].
  rewrite Hd in H.
  assert (E : existsb (fun r => CountdownNotions.expired
                         (CountdownNotions.distance_at (of_Z deadline) r)) readings = true).
  { apply existsb_exists. exists r. split; [exact Hin|].
    rewrite CountdownFacts.expired_of_Z. apply Z.ltb_lt. exact Hr. }
  rewrite E in H. exact (proj1 H).
Qed.

(** C10.  [run_clock] runs [update_clock] once before [timeinterval] has a
    value.  When the deadline is already reached at that moment, this first
    run calls [clearInterval] with no handle, the interval is armed all the
    same, and the timer loop delivers exactly one more run, which clears
    the interval, however many turns follow. *)
Theorem first_update_cannot_cancel
    (Date_parse : string -> number) (id endtime : string)
    (deadline start r : Z) (rest : list Z) :
  Date_parse endtime = of_Z deadline ->
  deadline <= start -> start <= r ->
  let at_reading := GolfNotions.remaining_at Date_parse endtime in
  let w0 := exec (Golf.run_clock Date_parse id endtime) (Golf.page_load start) in
  let w := Golf.session Date_parse id endtime start (r :: rest) in
  Golf.trace w0 = [Golf.Tick (at_reading start); Golf.Cleared None] /\
  is_armed 1%nat (Golf.scheduled w0) = true /\
  Golf.timeinterval w0 = Some 1%nat /\
  Golf.trace w = [Golf.Tick (at_reading start); Golf.Cleared None;
                  Golf.Tick (at_reading r); Golf.Cleared (Some 1%nat)] /\
  armed (Golf.scheduled w) = [].
Proof.
  intros Hd Hs Hr at_reading w0 w.
  destruct (GolfFacts.run_clock_exec Date_parse id endtime start) as ((Ha & Hn & Ht) & _ & Htr).
  fold w0 in Ha, Hn, Ht, Htr.
  assert (E0 : GolfNotions.expired (at_reading start) = true).
  { unfold at_reading. rewrite (GolfFacts.expired_parsed Date_parse endtime deadline _ Hd).
    apply Z.leb_le. exact Hs. }
  assert (E1 : GolfNotions.expired (at_reading r) = true).
  { unfold at_reading. rewrite (GolfFacts.expired_parsed Date_parse endtime deadline _ Hd).
    apply Z.leb_le. lia. }
  fold at_reading in Htr. rewrite E0 in Htr.
  destruct (GolfFacts.session_trace Date_parse id endtime start (r :: rest)) as [T S].
  fold w w0 at_reading in T, S. simpl in T, S. rewrite E1 in T, S. simpl in S.
  repeat split.
  - exact Htr.
  - unfold is_armed, lookup. rewrite Ha. reflexivity.
  - exact Ht.
  - rewrite T, Htr. reflexivity.
  - exact (proj1 S).
Qed.

Lemma first_update_cannot_cancel_witness :
  Golf.trace (Golf.session Date_parse_iso "counter-stats" Samples.deadline
                (Samples.deadline_ms + 5000) [Samples.deadline_ms + 6000;
                                              Samples.deadline_ms + 7000]) =
  [Golf.Tick (GolfNotions.remaining_at Date_parse_iso Samples.deadline
                (Samples.deadline_ms + 5000));
   Golf.Cleared None;
   Golf.Tick (GolfNotions.remaining_at Date_parse_iso Samples.deadline
                (Samples.deadline_ms + 6000));
   Golf.Cleared (Some 1%nat)].
Proof.
  refine (proj1 (proj2 (proj2 (proj2
    (first_update_cannot_cancel Date_parse_iso "counter-stats" Samples.deadline
       Samples.deadline_ms (Samples.deadline_ms + 5000) (Samples.deadline_ms + 6000)
       [Samples.deadline_ms + 7000] eq_refl _ _))))).
  - vm_compute. discriminate.
  - vm_compute. discriminate.
Defined.

Lemma countdown_trace_through (deadline : Z) (live rest : list Z) :
  Forall (fun r => r <= deadline) live ->
  CountdownNotions.scheduled_trace (of_Z deadline) (live ++ rest)%list =
  (map (fun r => Countdown.Tick (of_Z (deadline - r))) live
   ++ CountdownNotions.scheduled_trace (of_Z deadline) rest)%list /\
  existsb (fun r => CountdownNotions.expired
                      (CountdownNotions.distance_at (of_Z deadline) r))
          (live ++ rest)%list =
  existsb (fun r => CountdownNotions.expired
                      (CountdownNotions.distance_at (of_Z deadline) r)) rest.
Proof.
  induction 1 as [|r live Hr _ [IH1 IH2]];
    cbn [app CountdownNotions.scheduled_trace map existsb].
  - split; reflexivity.
  - rewrite CountdownFacts.expired_of_Z.
    replace (deadline <? r) with false by (symmetry; apply Z.ltb_ge; exact Hr).
    cbn [orb]. split; [|exact IH2].
    rewrite IH1. unfold CountdownNotions.distance_at. rewrite sub_of_Z. reflexivity.
Qed.

Lemma countdown_runs_through_deadline (Date_parse : string -> number) (tza : Z)
    (today : Countdown.DateObj) (deadline : Z) (live : list Z) (next : Z) :
  Countdown.countDown_of Date_parse today = of_Z deadline ->
  Forall (fun r => r <= deadline) live ->
  armed (Countdown.scheduled (Countdown.session Date_parse tza today live)) =
  [CountdownNotions.entry (of_Z deadline)] /\
  Countdown.trace (Countdown.session Date_parse tza today live) =
  map (fun r => Countdown.Tick (of_Z (deadline - r))) live /\
  Countdown.trace (Countdown.session Date_parse tza today (live ++ [next])%list) =
  (map (fun r => Countdown.Tick (of_Z (deadline - r))) live
   ++ Countdown.Tick (of_Z (deadline - next))
      :: (if deadline <? next
          then [Countdown.Expire; Countdown.Cleared (Some 1%nat)]
          else []))%list.
Proof.
  intros Hc Hl.
  destruct (countdown_trace_through deadline live [] Hl) as [E1 E2].
  destruct (countdown_trace_through deadline live [next] Hl) as [N1 _].
  rewrite app_nil_r in E1, E2. cbn [CountdownNotions.scheduled_trace existsb] in E1, E2.
  rewrite app_nil_r in E1.
  destruct (CountdownFacts.countdown_session_trace Date_parse tza today live) as [T S].
  rewrite Hc in T, S. rewrite E2 in S. rewrite E1 in T.
  destruct (CountdownFacts.countdown_session_trace Date_parse tza today (live ++ [next])%list)
    as [T' _].
  rewrite Hc, N1 in T'. cbn [CountdownNotions.scheduled_trace] in T'.
  rewrite CountdownFacts.expired_of_Z in T'.
  unfold CountdownNotions.distance_at in T'. rewrite sub_of_Z in T'.
  split; [exact (proj1 S)|]. split; [exact T|].
  rewrite T'. destruct (deadline <? next); reflexivity.
Qed.

(** C1, as the code has it.  In [golf.js], once a run of [update_clock]
    delivered by the interval finds a total of zero or less, the interval
    is cleared, once, and no run follows it, whatever the later readings
    ([golf.js] has no expiry callback).  In the 09/30 countdown, once a tick
    finds a total below zero, the expiry effects happen once, the interval
    is cleared once, and no tick follows, whatever the later readings; a
    tick that finds zero exactly is not the last one: as long as no reading
    is after the deadline the interval stays armed with one tick per
    reading and neither expiry nor clearing, and the next reading gets its
    tick, which expires only when it is after the deadline. *)
Theorem expiry_is_terminal
    (Date_parse : string -> number) (id endtime : string) (start tza : Z)
    (today : Countdown.DateObj) (readings : list Z) :
  (forall (pre post : list Golf.event) (t : Golf.Remaining),
      Golf.trace (Golf.session Date_parse id endtime start readings) =
      (Golf.trace (exec (Golf.run_clock Date_parse id endtime) (Golf.page_load start))
       ++ pre ++ Golf.Tick t :: post)%list ->
      (Golf.total t <=? 0)%js = true ->
      post = [Golf.Cleared (Some 1%nat)] /\
      Forall GolfNotions.live_tick pre /\
      armed (Golf.scheduled (Golf.session Date_parse id endtime start readings)) = []) /\
  (forall (pre post : list Countdown.event) (distance : number),
      Countdown.trace (Countdown.session Date_parse tza today readings) =
      (pre ++ Countdown.Tick distance :: post)%list ->
      (distance <? 0)%js = true ->
      post = [Countdown.Expire; Countdown.Cleared (Some 1%nat)] /\
      Forall CountdownNotions.live_tick pre /\
      armed (Countdown.scheduled (Countdown.session Date_parse tza today readings)) = []) /\
  (forall (deadline next : Z),
      Countdown.countDown_of Date_parse today = of_Z deadline ->
      Forall (fun r => r <= deadline) readings ->
      armed (Countdown.scheduled (Countdown.session Date_parse tza today readings)) =
      [CountdownNotions.entry (of_Z deadline)] /\
      Countdown.trace (Countdown.session Date_parse tza today readings) =
      map (fun r => Countdown.Tick (of_Z (deadline - r))) readings /\
      Countdown.trace (Countdown.session Date_parse tza today (readings ++ [next])%list) =
      (map (fun r => Countdown.Tick (of_Z (deadline - r))) readings
       ++ Countdown.Tick (of_Z (deadline - next))
          :: (if deadline <? next
              then [Countdown.Expire; Countdown.Cleared (Some 1%nat)]
              else []))%list).
Proof.
  split; [|split].
  - intros pre post t Htr Ht.
    destruct (GolfFacts.session_trace Date_parse id endtime start readings) as [T S].
    rewrite T in Htr. apply app_inv_head in Htr.
    destruct (GolfFacts.scheduled_trace_expiry _ _ _ _ _ Htr Ht) as (H1 & H2 & H3).
    rewrite H3 in S. repeat split; [exact H1 | exact H2 | exact (proj1 S)].
  - intros pre post distance Htr Hd.
    destruct (CountdownFacts.countdown_session_trace Date_parse tza today readings) as [T S].
    rewrite T in Htr.
    destruct (CountdownFacts.tick_trace_expiry _ _ _ _ _ Htr Hd) as (H1 & H2 & H3).
    rewrite H3 in S. repeat split; [exact H1 | exact H2 | exact (proj1 S)].
  - intros deadline next Hc Hl.
    exact (countdown_runs_through_deadline Date_parse tza today deadline readings next
             Hc Hl).
Qed.

Lemma expiry_is_terminal_witness :
  armed (Golf.scheduled
           (Golf.session Date_parse_iso "counter-stats" Samples.deadline
              Samples.hour_before
              [Samples.deadline_ms - 1000; Samples.deadline_ms;
               Samples.deadline_ms + 1000])) = [] /\
  armed (Countdown.scheduled
           (Countdown.session (Date_parse_mdy 0) 0 Samples.eve
              [Samples.deadline_ms - 1; Samples.deadline_ms + 1;
               Samples.deadline_ms + 2])) = [] /\
  Countdown.trace
    (Countdown.session (Date_parse_mdy 0) 0 Samples.eve
       ([Samples.deadline_ms - 1; Samples.deadline_ms] ++ [Samples.deadline_ms + 1])%list) =
  (map (fun r => Countdown.Tick (of_Z (Samples.deadline_ms - r)))
       [Samples.deadline_ms - 1; Samples.deadline_ms]
   ++ Countdown.Tick (of_Z (Samples.deadline_ms - (Samples.deadline_ms + 1)))
      :: (if Samples.deadline_ms <? Samples.deadline_ms + 1
          then [Countdown.Expire; Countdown.Cleared (Some 1%nat)]
          else []))%list.
Proof.
  pose proof (expiry_is_terminal Date_parse_iso "counter-stats" Samples.deadline
                Samples.hour_before 0 Samples.eve
                [Samples.deadline_ms - 1000; Samples.deadline_ms;
                 Samples.deadline_ms + 1000]) as (G & _ & _).
  pose proof (expiry_is_terminal (Date_parse_mdy 0) "counter-stats" Samples.deadline
                Samples.hour_before 0 Samples.eve
                [Samples.deadline_ms - 1; Samples.deadline_ms + 1;
                 Samples.deadline_ms + 2]) as (_ & C & _).
  pose proof (expiry_is_terminal (Date_parse_mdy 0) "counter-stats" Samples.deadline
                Samples.hour_before 0 Samples.eve
                [Samples.deadline_ms - 1; Samples.deadline_ms]) as (_ & _ & Z0).
  split; [|split].
  - exact (proj2 (proj2
      (G [Golf.Tick (GolfNotions.remaining_at Date_parse_iso Samples.deadline
                       (Samples.deadline_ms - 1000))]
         [Golf.Cleared (Some 1%nat)]
         (GolfNotions.remaining_at Date_parse_iso Samples.deadline Samples.deadline_ms)
         eq_refl eq_refl))).
  - exact (proj2 (proj2
      (C [Countdown.Tick (of_Z 1)]
         [Countdown.Expire; Countdown.Cleared (Some 1%nat)]
         (of_Z (-1)) eq_refl eq_refl))).
  - refine (proj2 (proj2 (Z0 Samples.deadline_ms (Samples.deadline_ms + 1) eq_refl _))).
    repeat constructor; vm_compute; discriminate.
Defined.

(** The 09/30 countdown armed on 29 September: the tick that reads the
    deadline itself finds a total of zero and is followed by another tick.
    In [golf.js], a first run of [update_clock] past the deadline is
    followed by a second run. *)
Lemma tick_after_zero :
  (Countdown.countDown_of (Date_parse_mdy 0) Samples.eve = of_Z Samples.deadline_ms /\
   Countdown.trace
     (Countdown.session (Date_parse_mdy 0) 0 Samples.eve
        [Samples.deadline_ms; Samples.deadline_ms + 1; Samples.deadline_ms + 2]) =
   [Countdown.Tick (of_Z 0); Countdown.Tick (of_Z (-1)); Countdown.Expire;
    Countdown.Cleared (Some 1%nat)] /\
   (of_Z 0 <=? 0)%js = true) /\
  (Golf.trace
     (Golf.session Date_parse_iso "counter-stats" Samples.deadline
        (Samples.deadline_ms + 5000) [Samples.deadline_ms + 6000]) =
   [Golf.Tick (GolfNotions.remaining_at Date_parse_iso Samples.deadline
                 (Samples.deadline_ms + 5000));
    Golf.Cleared None;
    Golf.Tick (GolfNotions.remaining_at Date_parse_iso Samples.deadline
                 (Samples.deadline_ms + 6000));
    Golf.Cleared (Some 1%nat)] /\
   Golf.total (GolfNotions.remaining_at Date_parse_iso Samples.deadline
                 (Samples.deadline_ms + 5000)) = of_Z (-5000)).
Proof.
  repeat split; vm_compute; reflexivity.
Qed.

(** C4, as the code has it.  When the reading equals the deadline, days,
    hours, minutes and seconds are all zero in both scripts.  In [golf.js]
    the interval is cleared by the scheduled run that reads the deadline;
    when the deadline is read by the first run of [run_clock], that run
    leaves the interval armed and the next run clears it.  In the 09/30
    countdown the tick that reads the deadline does not clear: the interval
    is still armed after it, with neither expiry nor clearing; the next
    tick clears when its reading is later than the deadline. *)
Theorem deadline_reached_exactly
    (Date_parse : string -> number) (id endtime : string) (tza : Z)
    (today : Countdown.DateObj) :
  (forall deadline : Z,
      Date_parse endtime = of_Z deadline ->
      (forall w : Golf.World,
          Golf.now w = deadline ->
          fst (Golf.time_remaining Date_parse endtime w) =
          {| Golf.total := of_Z 0; Golf.days := of_Z 0; Golf.hours := of_Z 0;
             Golf.minutes := of_Z 0; Golf.seconds := of_Z 0 |}) /\
      (forall (start : Z) (before rest : list Z),
          armed (Golf.scheduled
                   (Golf.session Date_parse id endtime start
                      (before ++ deadline :: rest)%list)) = []) /\
      armed (Golf.scheduled (Golf.session Date_parse id endtime deadline [])) =
      [GolfNotions.entry endtime] /\
      (forall (next : Z) (rest : list Z),
          deadline <= next ->
          armed (Golf.scheduled
                   (Golf.session Date_parse id endtime deadline (next :: rest))) = [])) /\
  (forall deadline : Z,
      Countdown.countDown_of Date_parse today = of_Z deadline ->
      (forall cw : Countdown.World,
          Countdown.now cw = deadline ->
          CountdownNotions.texts (exec (Countdown.tick (of_Z deadline)) cw) =
          ("0", "0", "0", "0")) /\
      (forall before : list Z,
          Forall (fun r => r <= deadline) before ->
          armed (Countdown.scheduled
                   (Countdown.session Date_parse tza today (before ++ [deadline])%list)) =
          [CountdownNotions.entry (of_Z deadline)] /\
          Countdown.trace
            (Countdown.session Date_parse tza today (before ++ [deadline])%list) =
          (map (fun r => Countdown.Tick (of_Z (deadline - r))) before
           ++ [Countdown.Tick (of_Z 0)])%list) /\
      (forall (before rest : list Z) (next : Z),
          deadline < next ->
          armed (Countdown.scheduled
                   (Countdown.session Date_parse tza today
                      (before ++ deadline :: next :: rest)%list)) = [])).
Proof.
  split.
  - intros deadline Hd. split; [|split; [|split]].
    + intros w Hw. rewrite GolfFacts.time_remaining_pure. simpl fst.
      rewrite (GolfFacts.remaining_at_parsed Date_parse endtime deadline _ Hd).
      rewrite Hw, Z.sub_diag. reflexivity.
    + intros start before rest.
      apply (golf_session_stops Date_parse id endtime deadline start deadline _ Hd);
        [apply in_or_app; right; left; reflexivity | lia].
    + destruct (GolfFacts.session_trace Date_parse id endtime deadline []) as [_ S].
      exact (proj1 S).
    + intros next rest Hn.
      apply (golf_session_stops Date_parse id endtime deadline deadline next _ Hd);
        [left; reflexivity | exact Hn].
  - intros deadline Hc. split; [|split].
    + intros cw Hw. rewrite CountdownFacts.tick_texts. rewrite Hw, Z.sub_diag. reflexivity.
    + intros before Hb.
      assert (Hl : Forall (fun r => r <= deadline) (before ++ [deadline])%list).
      { apply Forall_app. split; [exact Hb|]. constructor; [lia | constructor]. }
      destruct (countdown_runs_through_deadline Date_parse tza today deadline
                  (before ++ [deadline])%list deadline Hc Hl) as (A & T & _).
      split; [exact A|].
      rewrite T, map_app. cbn [map]. rewrite Z.sub_diag. reflexivity.
    + intros before rest next Hn.
      apply (countdown_session_stops Date_parse tza today deadline next _ Hc);
        [apply in_or_app; right; right; left; reflexivity | exact Hn].
Qed.

Lemma deadline_reached_exactly_witness :
  armed (Golf.scheduled
           (Golf.session Date_parse_iso "counter-stats" Samples.deadline
              Samples.deadline_ms [Samples.deadline_ms + 1000])) = [] /\
  armed (Countdown.scheduled
           (Countdown.session (Date_parse_mdy 0) 0 Samples.eve
              ([Samples.deadline_ms - 4] ++ [Samples.deadline_ms])%list)) =
  [CountdownNotions.entry (of_Z Samples.deadline_ms)] /\
  armed (Countdown.scheduled
           (Countdown.session (Date_parse_mdy 0) 0 Samples.eve
              ([] ++ Samples.deadline_ms :: (Samples.deadline_ms + 4) :: [])%list)) = [].
Proof.
  pose proof (deadline_reached_exactly Date_parse_iso "counter-stats"
                Samples.deadline 0 Samples.eve) as [G _].
  pose proof (deadline_reached_exactly (Date_parse_mdy 0) "counter-stats"
                Samples.deadline 0 Samples.eve) as [_ C].
  destruct (G Samples.deadline_ms eq_refl) as (_ & _ & _ & G3).
  destruct (C Samples.deadline_ms eq_refl) as (_ & C2 & C3).
  split; [|split].
  - apply (G3 (Samples.deadline_ms + 1000) []). vm_compute. discriminate.
  - refine (proj1 (C2 [Samples.deadline_ms - 4] _)).
    repeat constructor. vm_compute. discriminate.
  - apply (C3 [] [] (Samples.deadline_ms + 4)). reflexivity.
Defined.

(** The 09/30 countdown armed on 29 September: two ticks in a row read the
    deadline itself, and the interval is still armed after the second. *)
Lemma still_armed_at_zero :
  Countdown.countDown_of (Date_parse_mdy 0) Samples.eve = of_Z Samples.deadline_ms /\
  Countdown.trace
    (Countdown.session (Date_parse_mdy 0) 0 Samples.eve
       [Samples.deadline_ms; Samples.deadline_ms]) =
  [Countdown.Tick (of_Z 0); Countdown.Tick (of_Z 0)] /\
  is_armed 1%nat
    (Countdown.scheduled
       (Countdown.session (Date_parse_mdy 0) 0 Samples.eve
          [Samples.deadline_ms; Samples.deadline_ms])) = true.
Proof.
  repeat split; vm_compute; reflexivity.
Qed.

Lemma scheduled_trace_unparsed (Date_parse : string -> number) (endtime : string)
    (readings : list Z) :
  Date_parse endtime = NaN ->
  GolfNotions.scheduled_trace (GolfNotions.remaining_at Date_parse endtime) readings =
  repeat (Golf.Tick GolfNotions.no_remaining) (List.length readings) /\
  existsb (fun r => GolfNotions.expired (GolfNotions.remaining_at Date_parse endtime r))
          readings = false.
Proof.
  intros Hd. induction readings as [|r rs [IH1 IH2]]; simpl.
  - split; reflexivity.
  - rewrite (GolfFacts.remaining_at_unparsed Date_parse endtime r Hd) in *.
    simpl. split; [f_equal; exact IH1 | exact IH2].
Qed.

(** C7, as the code has it.  When the deadline string does not parse,
    [run_clock] reports nothing: it runs [update_clock] and arms the
    interval as for any deadline.  Every run computes NaN for the total and
    the four fields and writes ["NaN"], ["aN"], ["aN"] and ["aN"]; the test
    for clearing never holds, so a run is delivered at every turn of the
    timer loop and the interval stays armed. *)
Theorem unparsable_deadline_still_ticks
    (Date_parse : string -> number) (id endtime : string) (start : Z)
    (readings : list Z) :
  Date_parse endtime = NaN ->
  let w := Golf.session Date_parse id endtime start readings in
  armed (Golf.scheduled w) = [GolfNotions.entry endtime] /\
  Golf.trace w = repeat (Golf.Tick GolfNotions.no_remaining) (S (List.length readings)) /\
  (forall w0 : Golf.World,
      GolfNotions.spans (exec (Golf.update_clock Date_parse endtime) w0) =
      ("NaN", "aN", "aN", "aN")).
Proof.
  intros Hd w.
  destruct (GolfFacts.session_trace Date_parse id endtime start readings) as [T S].
  fold w in T, S.
  destruct (scheduled_trace_unparsed Date_parse endtime readings Hd) as [E1 E2].
  destruct (GolfFacts.run_clock_exec Date_parse id endtime start) as (_ & _ & Htr).
  rewrite (GolfFacts.remaining_at_unparsed Date_parse endtime start Hd) in Htr.
  simpl in Htr. rewrite E2 in S. rewrite E1, Htr in T.
  repeat split.
  - exact (proj1 S).
  - exact T.
  - intros w0. rewrite GolfFacts.update_clock_exec.
    rewrite (GolfFacts.remaining_at_unparsed Date_parse endtime _ Hd). reflexivity.
Qed.

Lemma unparsable_deadline_still_ticks_witness :
  Golf.trace (Golf.session Date_parse_iso "counter-stats" Samples.unparsable 0
                [1000; 2000]) =
  repeat (Golf.Tick GolfNotions.no_remaining) 3.
Proof.
  exact (proj1 (proj2
    (unparsable_deadline_still_ticks Date_parse_iso "counter-stats"
       Samples.unparsable 0 [1000; 2000] eq_refl))).
Defined.

(** A deadline string the host cannot parse: [run_clock] returns with the
    interval armed, and the interval is still armed two turns later. *)
Lemma timer_armed_on_unparsable_deadline :
  Date_parse_iso Samples.unparsable = NaN /\
  is_armed 1%nat
    (Golf.scheduled (exec (Golf.run_clock Date_parse_iso "counter-stats" Samples.unparsable)
                       (Golf.page_load 0))) = true /\
  is_armed 1%nat
    (Golf.scheduled (Golf.session Date_parse_iso "counter-stats" Samples.unparsable 0
                       [1000; 2000])) = true.
Proof.
  repeat split; vm_compute; reflexivity.
Qed.

End Timers.

(** ** The deadline of the 09/30 countdown *)

Section Deadline.
Import JS Notions NumberFacts Countdown CountdownNotions.
Local Open Scope Z_scope.

Lemma ascii_compare_refl (c : ascii) : Ascii.compare c c = Eq.
Proof. unfold Ascii.compare. apply N.compare_refl. Qed.

Lemma string_compare_refl (s : string) : String.compare s s = Eq.
Proof.
  induction s as [|c s IH]; simpl; [reflexivity|].
  rewrite ascii_compare_refl. exact IH.
Qed.

Lemma compare_same_suffix (p q s : string) :
  String.length p = String.length q ->
  String.compare (p ++ s) (q ++ s) = String.compare p q.
Proof.
  revert q. induction p as [|c p IH]; intros [|c' q] H; simpl in *;
    try discriminate.
  - apply string_compare_refl.
  - destruct (Ascii.compare c c'); try reflexivity.
    apply IH. congruence.
Qed.

Lemma prefix_agrees_all (m d : Z) :
  0 <= m <= 11 -> 1 <= d <= 31 -> prefix_agrees m d = true.
Proof.
  intros Hm Hd.
  pose proof (below_spec
    (fun m => below (fun d' => prefix_agrees m (d' + 1)) 31) 12) as H.
  assert (C : below (fun m => below (fun d' => prefix_agrees m (d' + 1)) 31) 12 = true)
    by (vm_compute; reflexivity).
  specialize (H C m ltac:(lia)). cbv beta in H.
  pose proof (below_spec (fun d' => prefix_agrees m (d' + 1)) 31 H (d - 1) ltac:(lia)) as H'.
  cbv beta in H'. replace (d - 1 + 1) with d in H' by lia. exact H'.
Qed.

Lemma birthday_string_cases (today : DateObj) :
  0 <= Month today <= 11 -> 1 <= DayOfMonth today <= 31 ->
  birthday_string today =
  "09/30/" ++ ToString (of_Z (if after_september_30 (Month today) (DayOfMonth today)
                              then FullYear today + 1 else FullYear today)).
Proof.
  intros Hm Hd. unfold birthday_string, getDate, getMonth, getFullYear.
  cbv zeta. rewrite !add_of_Z.
  rewrite (ToString_of_Z (Month today + 1)), (ToString_of_Z (DayOfMonth today)).
  fold (month_day_prefix (Month today) (DayOfMonth today)).
  pose proof (prefix_agrees_all _ _ Hm Hd) as P.
  unfold prefix_agrees in P. apply andb_prop in P. destruct P as [P1 P2].
  apply Nat.eqb_eq in P1. apply Bool.eqb_prop in P2.
  unfold string_gt in *.
  rewrite (compare_same_suffix (month_day_prefix (Month today) (DayOfMonth today))
             "09/30/" _ P1).
  rewrite P2. destruct (after_september_30 (Month today) (DayOfMonth today)); reflexivity.
Qed.

Lemma DayFromYear_step (y : Z) : DayFromYear y + 364 <= DayFromYear (y + 1).
Proof.
  unfold DayFromYear. Z.div_mod_to_equations. lia.
Qed.

Lemma MakeDay_in_year (y m d : Z) :
  0 <= m <= 11 ->
  MakeDay y m d = DayFromYear y + DayWithinYear (InLeapYear y) m + d - 1.
Proof.
  intros Hm. unfold MakeDay.
  rewrite (Z.div_small m 12), (Z.mod_small m 12), Z.add_0_r by lia. reflexivity.
Qed.

Lemma month_cases (m : Z) :
  0 <= m <= 11 ->
  m = 0 \/ m = 1 \/ m = 2 \/ m = 3 \/ m = 4 \/ m = 5 \/
  m = 6 \/ m = 7 \/ m = 8 \/ m = 9 \/ m = 10 \/ m = 11.
Proof. lia. Qed.

Lemma day_before_september_30 (leap : bool) (m d : Z) :
  0 <= m <= 11 -> 1 <= d <= 31 ->
  after_september_30 m d = false -> ~ (m = 8 /\ d = 30) ->
  DayWithinYear leap m + d < DayWithinYear leap 8 + 30.
Proof.
  intros Hm Hd Ha Hne. unfold after_september_30 in Ha.
  destruct (month_cases m Hm) as [E|[E|[E|[E|[E|[E|[E|[E|[E|[E|[E|E]]]]]]]]]]];
    subst m; simpl in Ha; try discriminate; try apply Z.ltb_ge in Ha;
    destruct leap; cbn [DayWithinYear]; lia.
Qed.

Lemma day_within_year_bound (leap : bool) (m : Z) :
  0 <= m <= 11 -> 0 <= DayWithinYear leap m <= 335.
Proof.
  intros Hm.
  destruct (month_cases m Hm) as [E|[E|[E|[E|[E|[E|[E|[E|[E|[E|[E|E]]]]]]]]]]];
    subst m; destruct leap; simpl; lia.
Qed.

Lemma days_in_month_bound (leap : bool) (m : Z) :
  0 <= m <= 11 -> DaysInMonth leap m <= 31.
Proof.
  intros Hm.
  destruct (month_cases m Hm) as [E|[E|[E|[E|[E|[E|[E|[E|[E|[E|[E|E]]]]]]]]]]];
    subst m; destruct leap; simpl; lia.
Qed.

(** C5, as the code has it.  The deadline is 30 September of the current
    year, or of the next year when today's month and day are after 09/30.
    On every day but 30 September it is strictly later than the instant of
    start-up; on 30 September the deadline is the midnight that began the
    day, which is not later than the instant of start-up. *)
Theorem deadline_in_future_except_on_the_day
    (Date_parse : string -> number) (tza : Z) (today : DateObj) :
  well_formed today ->
  reads_september_30 Date_parse tza (FullYear today) ->
  reads_september_30 Date_parse tza (FullYear today + 1) ->
  exists c : Z,
    countDown_of Date_parse today = of_Z c /\
    (~ (Month today = 8 /\ DayOfMonth today = 30) -> getTime tza today < c) /\
    (Month today = 8 /\ DayOfMonth today = 30 -> c <= getTime tza today).
Proof.
  intros (Hm & Hd & Ht) R0 R1.
  pose proof (days_in_month_bound (InLeapYear (FullYear today)) _ Hm) as Hb.
  assert (Hd' : 1 <= DayOfMonth today <= 31) by lia.
  unfold countDown_of. rewrite (birthday_string_cases today Hm Hd').
  unfold getTime, MakeDate, msPerDay in *.
  rewrite (MakeDay_in_year _ _ _ Hm).
  destruct (after_september_30 (Month today) (DayOfMonth today)) eqn:A.
  - eexists. split; [exact R1|]. unfold MakeDate, msPerDay.
    rewrite (MakeDay_in_year (FullYear today + 1) 8 30) by lia.
    pose proof (DayFromYear_step (FullYear today)) as S.
    pose proof (day_within_year_bound (InLeapYear (FullYear today)) _ Hm) as B.
    pose proof (day_within_year_bound (InLeapYear (FullYear today + 1)) 8 ltac:(lia)) as B8.
    split.
    + intros _. lia.
    + intros [E1 E2]. rewrite E1, E2 in A. discriminate.
  - eexists. split; [exact R0|]. unfold MakeDate, msPerDay.
    rewrite (MakeDay_in_year (FullYear today) 8 30) by lia.
    split.
    + intros Hne.
      pose proof (day_before_september_30 (InLeapYear (FullYear today)) _ _ Hm Hd' A Hne).
      lia.
    + intros [E1 E2]. rewrite E1, E2. lia.
Qed.

Lemma deadline_in_future_except_on_the_day_witness :
  exists c : Z,
    countDown_of (Date_parse_mdy 0) Samples.day_after = of_Z c /\
    (~ (Month Samples.day_after = 8 /\ DayOfMonth Samples.day_after = 30) ->
     getTime 0 Samples.day_after < c) /\
    (Month Samples.day_after = 8 /\ DayOfMonth Samples.day_after = 30 ->
     c <= getTime 0 Samples.day_after).
Proof.
  apply (deadline_in_future_except_on_the_day (Date_parse_mdy 0) 0 Samples.day_after).
  - repeat split; vm_compute; congruence.
  - reflexivity.
  - reflexivity.
Defined.

(** Start-up at ten in the morning of 30 September 2025: the deadline is
    the midnight before, ten hours earlier. *)
Lemma deadline_already_passed_on_the_day :
  countDown_of (Date_parse_mdy 0) Samples.the_day = of_Z Samples.deadline_ms /\
  getTime 0 Samples.the_day = Samples.deadline_ms + 36000000 /\
  ~ (getTime 0 Samples.the_day < Samples.deadline_ms).
Proof.
  repeat split; try (vm_compute; reflexivity).
  vm_compute. discriminate.
Qed.

End Deadline.

(** ** The click and scroll handlers *)

Module PageFacts.
Import JS Page PageNotions.

Lemma hasClass_add_name (c k : string) (e : element) :
  hasClass c (add_name k e) = hasClass c e || String.eqb c k.
Proof.
  unfold add_name. destruct (hasClass k e) eqn:H.
  - destruct (String.eqb_spec c k) as [->|_].
    + rewrite H. reflexivity.
    + rewrite orb_false_r. reflexivity.
  - unfold hasClass, set_classes. simpl. rewrite existsb_app. simpl.
    rewrite orb_false_r. reflexivity.
Qed.

Lemma existsb_filter_out (c k : string) (l : list string) :
  existsb (String.eqb c) (filter (fun x => negb (String.eqb k x)) l) =
  existsb (String.eqb c) l && negb (String.eqb c k).
Proof.
  induction l as [|a l IH]; simpl; [reflexivity|].
  destruct (String.eqb_spec k a) as [->|Hka]; simpl.
  - rewrite IH. destruct (String.eqb c a); simpl; [|reflexivity].
    rewrite andb_false_r. reflexivity.
  - rewrite IH. destruct (String.eqb_spec c a) as [->|Hca]; simpl; [|reflexivity].
    destruct (String.eqb_spec a k) as [->|_]; [congruence | reflexivity].
Qed.

Lemma hasClass_remove_name (c k : string) (e : element) :
  hasClass c (remove_name k e) = hasClass c e && negb (String.eqb c k).
Proof. unfold hasClass, remove_name. simpl. apply existsb_filter_out. Qed.

Lemma hasClass_toggle_name (c k : string) (e : element) :
  hasClass c (toggle_name k e) =
  if String.eqb c k then negb (hasClass c e) else hasClass c e.
Proof.
  unfold toggle_name. destruct (hasClass k e) eqn:H.
  - rewrite hasClass_remove_name.
    destruct (String.eqb_spec c k) as [->|_]; simpl.
    + rewrite H. reflexivity.
    + apply andb_true_r.
  - rewrite hasClass_add_name.
    destruct (String.eqb_spec c k) as [->|_]; simpl.
    + rewrite H. reflexivity.
    + apply orb_false_r.
Qed.

Lemma add_name_frame (k : string) (e : element) :
  ident (add_name k e) = ident e /\ offset_top (add_name k e) = offset_top e /\
  style (add_name k e) = style e.
Proof. unfold add_name. destruct (hasClass k e); repeat split. Qed.

Lemma remove_name_frame (k : string) (e : element) :
  ident (remove_name k e) = ident e /\ offset_top (remove_name k e) = offset_top e /\
  style (remove_name k e) = style e.
Proof. repeat split. Qed.

Lemma toggle_name_frame (k : string) (e : element) :
  ident (toggle_name k e) = ident e /\ offset_top (toggle_name k e) = offset_top e /\
  style (toggle_name k e) = style e.
Proof.
  unfold toggle_name. destruct (hasClass k e);
    [apply remove_name_frame | apply add_name_frame].
Qed.

Lemma same_apart_add_name (k : string) (names : list string) (e : element) :
  In k names -> same_apart_from names e (add_name k e).
Proof.
  intros Hk. destruct (add_name_frame k e) as (H1 & H2 & H3).
  repeat split; try assumption.
  intros c Hc. rewrite hasClass_add_name.
  destruct (String.eqb_spec c k) as [->|_]; [contradiction | apply orb_false_r].
Qed.

Lemma same_apart_remove_name (k : string) (names : list string) (e : element) :
  In k names -> same_apart_from names e (remove_name k e).
Proof.
  intros Hk. repeat split.
  intros c Hc. rewrite hasClass_remove_name.
  destruct (String.eqb_spec c k) as [->|_]; [contradiction | apply andb_true_r].
Qed.

Lemma same_apart_refl (names : list string) (e : element) :
  same_apart_from names e e.
Proof. repeat split. Qed.

Lemma same_apart_trans (names : list string) (e1 e2 e3 : element) :
  same_apart_from names e1 e2 -> same_apart_from names e2 e3 ->
  same_apart_from names e1 e3.
Proof.
  intros (A1 & A2 & A3 & A4) (B1 & B2 & B3 & B4).
  repeat split; try congruence.
  intros c Hc. rewrite (B4 c Hc). apply A4. exact Hc.
Qed.

Lemma Forall2_map_self {A : Type} (R : A -> A -> Prop) (g : A -> A) (l : list A) :
  (forall a, R a (g a)) -> Forall2 R l (map g l).
Proof.
  intros H. induction l as [|a l IH]; simpl; constructor; auto.
Qed.

End PageFacts.

Section Handlers.
Import JS Page PageNotions PageFacts.
Local Open Scope Z_scope.

Lemma lt_sum_iff (t p h : Q) :
  (Num t <? Num p + Num h)%js = true <-> (t < p + h)%Q.
Proof.
  change ((Num t <? Num p + Num h)%js) with (negb (Qle_bool (Qred (p + h)) t)).
  rewrite negb_true_iff. split.
  - intros H. apply Qnot_le_lt. intros Hle.
    assert (E : Qle_bool (Qred (p + h)) t = true).
    { apply Qle_bool_iff. rewrite Qred_correct. exact Hle. }
    congruence.
  - intros H. destruct (Qle_bool (Qred (p + h)) t) eqn:E; [|reflexivity].
    apply Qle_bool_iff in E. rewrite Qred_correct in E.
    exfalso. exact (Qlt_not_le _ _ H E).
Qed.

Lemma add_name_present (k : string) (e : element) :
  hasClass k e = true -> add_name k e = e.
Proof. intros H. unfold add_name. rewrite H. reflexivity. Qed.

Lemma filter_none (k : string) (l : list string) :
  existsb (String.eqb k) l = false ->
  filter (fun x => negb (String.eqb k x)) l = l.
Proof.
  induction l as [|a l IH]; simpl; [reflexivity|].
  intros H. apply orb_false_elim in H. destruct H as [H1 H2].
  rewrite H1. simpl. f_equal. apply IH. exact H2.
Qed.

Lemma remove_name_absent (k : string) (e : element) :
  hasClass k e = false -> remove_name k e = e.
Proof.
  intros H. unfold remove_name. rewrite (filter_none k (classes e) H).
  destruct e; reflexivity.
Qed.

Lemma hasClass_remove_same (k : string) (e : element) :
  hasClass k (remove_name k e) = false.
Proof.
  rewrite hasClass_remove_name, String.eqb_refl. apply andb_false_r.
Qed.

Lemma hasClass_add_same (k : string) (e : element) :
  hasClass k (add_name k e) = true.
Proof.
  rewrite hasClass_add_name, String.eqb_refl. apply orb_true_r.
Qed.

(** The effect of the scroll handler on one element. *)
Lemma fadein_on_scroll_elements (w : window) :
  elements (fadein_on_scroll w) =
  map (fadein_element (scrollTop w + height w)%js) (elements w).
Proof. reflexivity. Qed.

(** X12.  After the scroll handler has run, every [.fadein] element has
    the class [visible] exactly when the top of its offset is less than
    the scroll position plus the height of the window; its other classes,
    its id and its style are as before, and the elements that are not
    [.fadein] are untouched. *)
Theorem fadein_marks_elements_above_bottom (w : window) :
  scrollTop (fadein_on_scroll w) = scrollTop w /\
  height (fadein_on_scroll w) = height w /\
  Forall2 (fun e e' =>
             same_apart_from ["visible"] e e' /\
             (hasClass "fadein" e = true ->
              hasClass "visible" e' = (offset_top e <? scrollTop w + height w)%js) /\
             (hasClass "fadein" e = false -> e' = e))
          (elements w) (elements (fadein_on_scroll w)).
Proof.
  split; [reflexivity|]. split; [reflexivity|].
  rewrite fadein_on_scroll_elements. apply Forall2_map_self. intros e.
  unfold fadein_element.
  destruct (hasClass "fadein" e) eqn:F.
  - destruct (offset_top e <? scrollTop w + height w)%js eqn:L.
    + split; [apply same_apart_add_name; left; reflexivity|].
      split; [intros _; apply hasClass_add_same | discriminate].
    + split; [apply same_apart_remove_name; left; reflexivity|].
      split; [intros _; apply hasClass_remove_same | discriminate].
  - split; [apply same_apart_refl|]. split; [discriminate | reflexivity].
Qed.

(** X13.  Scrolling further down never hides an element: an element that
    has the class [visible] after the handler ran at one scroll position
    still has it after the handler runs at a greater one. *)
Theorem scrolling_down_keeps_visible (w : window) (p p' h : Q) :
  scrollTop w = Num p -> height w = Num h -> (p <= p')%Q ->
  Forall2 (fun e1 e2 => hasClass "visible" e1 = true -> hasClass "visible" e2 = true)
          (elements (fadein_on_scroll w))
          (elements (fadein_on_scroll (scroll_to (Num p') (fadein_on_scroll w)))).
Proof.
  intros Hp Hh Hle. rewrite (fadein_on_scroll_elements (scroll_to _ _)).
  unfold scroll_to. cbn [scrollTop height elements].
  rewrite !fadein_on_scroll_elements.
  assert (Hh' : height (fadein_on_scroll w) = Num h) by exact Hh.
  rewrite Hp, Hh, Hh'.
  induction (elements w) as [|e l IH]; cbn [map]; constructor; [|exact IH].
  clear IH. unfold fadein_element at 1 3.
  destruct (hasClass "fadein" e) eqn:F.
  - destruct (offset_top e <? Num p + Num h)%js eqn:L.
    + intros _. unfold fadein_element.
      rewrite hasClass_add_name, F. cbn [orb].
      destruct (add_name_frame "visible" e) as (_ & O & _). rewrite O.
      destruct (offset_top e) as [|t]; [discriminate|].
      assert (L' : (Num t <? Num p' + Num h)%js = true).
      { apply lt_sum_iff. apply lt_sum_iff in L.
        apply (Qlt_le_trans _ _ _ L). apply Qplus_le_l. exact Hle. }
      rewrite L'. apply hasClass_add_same.
    + intros H. rewrite hasClass_remove_same in H. discriminate.
  - unfold fadein_element. rewrite F. auto.
Qed.

Lemma scrolling_down_keeps_visible_witness :
  Forall2 (fun e1 e2 => hasClass "visible" e1 = true -> hasClass "visible" e2 = true)
          (elements (fadein_on_scroll PageSamples.viewport))
          (elements (fadein_on_scroll
                       (scroll_to (Num 200) (fadein_on_scroll PageSamples.viewport)))).
Proof.
  apply (scrolling_down_keeps_visible PageSamples.viewport 100 200 500);
    [reflexivity | reflexivity | discriminate].
Defined.

Lemma fadein_element_idem (bottom : number) (e : element) :
  fadein_element bottom (fadein_element bottom e) = fadein_element bottom e.
Proof.
  unfold fadein_element at 2 3. destruct (hasClass "fadein" e) eqn:F.
  - destruct (offset_top e <? bottom)%js eqn:L; unfold fadein_element.
    + rewrite hasClass_add_name, F. cbn [orb].
      destruct (add_name_frame "visible" e) as (_ & O & _). rewrite O, L.
      apply add_name_present. apply hasClass_add_same.
    + rewrite hasClass_remove_name, F. cbn [andb negb String.eqb Ascii.eqb Bool.eqb].
      cbn [offset_top remove_name set_classes]. rewrite L.
      apply remove_name_absent. apply hasClass_remove_same.
  - unfold fadein_element. rewrite F. reflexivity.
Qed.

(** X14.  Running the scroll handler a second time without scrolling in
    between changes nothing. *)
Theorem fadein_on_scroll_idempotent (w : window) :
  fadein_on_scroll (fadein_on_scroll w) = fadein_on_scroll w.
Proof.
  assert (E : elements (fadein_on_scroll (fadein_on_scroll w)) =
              elements (fadein_on_scroll w)).
  { rewrite (fadein_on_scroll_elements (fadein_on_scroll w)).
    rewrite fadein_on_scroll_elements.
    change (scrollTop (fadein_on_scroll w)) with (scrollTop w).
    change (height (fadein_on_scroll w)) with (height w).
    rewrite map_map. apply map_ext. intros e. apply fadein_element_idem. }
  unfold fadein_on_scroll at 1. unfold each, set_elements.
  change (map _ (elements (fadein_on_scroll w)))
    with (elements (fadein_on_scroll (fadein_on_scroll w))).
  rewrite E. reflexivity.
Qed.

Lemma gt_threshold (s : Q) :
  gt (Num s + 1)%js 100 = true <-> (99 < s)%Q.
Proof.
  change (gt (Num s + 1)%js 100) with (negb (Qle_bool (Qred (s + 1)) 100)).
  rewrite negb_true_iff. split.
  - intros H. apply Qnot_le_lt. intros Hle.
    assert (E : Qle_bool (Qred (s + 1)) 100 = true).
    { apply Qle_bool_iff. rewrite Qred_correct.
      apply (Qplus_le_l _ _ 1) in Hle. exact Hle. }
    congruence.
  - intros H. destruct (Qle_bool (Qred (s + 1)) 100) eqn:E; [|reflexivity].
    apply Qle_bool_iff in E. rewrite Qred_correct in E.
    exfalso. apply (Qlt_not_le _ _ H).
    apply (Qplus_le_l _ _ 1). exact E.
Qed.

Lemma add_fixed_names (e : element) :
  same_apart_from fixed_names e (addClass "menu-fixed animated fadeInDown" e) /\
  forall c, In c fixed_names ->
            hasClass c (addClass "menu-fixed animated fadeInDown" e) = true.
Proof.
  change (addClass "menu-fixed animated fadeInDown" e)
    with (add_name "fadeInDown" (add_name "animated" (add_name "menu-fixed" e))).
  split.
  - apply (same_apart_trans _ _ (add_name "animated" (add_name "menu-fixed" e)));
      [apply (same_apart_trans _ _ (add_name "menu-fixed" e))|];
      apply same_apart_add_name; simpl; auto.
  - intros c Hc. rewrite !hasClass_add_name.
    destruct Hc as [<-|[<-|[<-|[]]]]; rewrite ?orb_true_r; reflexivity.
Qed.

Lemma remove_fixed_names (e : element) :
  same_apart_from fixed_names e (removeClass "menu-fixed animated fadeInDown" e) /\
  forall c, In c fixed_names ->
            hasClass c (removeClass "menu-fixed animated fadeInDown" e) = false.
Proof.
  change (removeClass "menu-fixed animated fadeInDown" e)
    with (remove_name "fadeInDown" (remove_name "animated" (remove_name "menu-fixed" e))).
  split.
  - apply (same_apart_trans _ _ (remove_name "animated" (remove_name "menu-fixed" e)));
      [apply (same_apart_trans _ _ (remove_name "menu-fixed" e))|];
      apply same_apart_remove_name; simpl; auto.
  - intros c Hc. rewrite !hasClass_remove_name.
    destruct Hc as [<-|[<-|[<-|[]]]]; rewrite ?andb_false_r; reflexivity.
Qed.

(** X15.  After the scroll handler of the menu has run at scroll position
    [s], every [.menu-item-wrapper2] element has the classes [menu-fixed],
    [animated] and [fadeInDown] exactly when [s] is greater than 99, also
    when one of them was in its markup; everything else is as before. *)
Theorem menu_fixed_past_threshold (w : window) (s : Q) :
  scrollTop w = Num s ->
  Forall2 (fun e e' =>
             same_apart_from fixed_names e e' /\
             (hasClass "menu-item-wrapper2" e = true ->
              forall c, In c fixed_names -> (hasClass c e' = true <-> (99 < s)%Q)) /\
             (hasClass "menu-item-wrapper2" e = false -> e' = e))
          (elements w) (elements (menu_on_scroll w)).
Proof.
  intros Hs. unfold menu_on_scroll. rewrite Hs.
  destruct (gt (Num s + 1)%js 100) eqn:G.
  - apply gt_threshold in G.
    apply Forall2_map_self. intros e. cbn [matches].
    destruct (hasClass "menu-item-wrapper2" e) eqn:M.
    + destruct (add_fixed_names e) as [A1 A2].
      split; [exact A1|]. split; [|discriminate].
      intros _ c Hc. rewrite (A2 c Hc). split; auto.
    + split; [apply same_apart_refl|]. split; [discriminate | reflexivity].
  - assert (N : ~ (99 < s)%Q).
    { intros H. apply gt_threshold in H. congruence. }
    apply Forall2_map_self. intros e. cbn [matches].
    destruct (hasClass "menu-item-wrapper2" e) eqn:M.
    + destruct (remove_fixed_names e) as [A1 A2].
      split; [exact A1|]. split; [|discriminate].
      intros _ c Hc. rewrite (A2 c Hc). split; [discriminate | contradiction].
    + split; [apply same_apart_refl|]. split; [discriminate | reflexivity].
Qed.

Lemma menu_fixed_past_threshold_witness :
  Forall2 (fun e e' =>
             same_apart_from fixed_names e e' /\
             (hasClass "menu-item-wrapper2" e = true ->
              forall c, In c fixed_names -> (hasClass c e' = true <-> (99 < 100)%Q)) /\
             (hasClass "menu-item-wrapper2" e = false -> e' = e))
          (elements PageSamples.viewport) (elements (menu_on_scroll PageSamples.viewport)).
Proof.
  exact (menu_fixed_past_threshold PageSamples.viewport 100 eq_refl).
Defined.

Lemma toggle_twice (k : string) (e : element) :
  same_apart_from [] e (toggle_name k (toggle_name k e)).
Proof.
  destruct (toggle_name_frame k e) as (A1 & A2 & A3).
  destruct (toggle_name_frame k (toggle_name k e)) as (B1 & B2 & B3).
  repeat split; try congruence.
  intros c _. rewrite !hasClass_toggle_name.
  destruct (String.eqb c k); [apply negb_involutive | reflexivity].
Qed.

Lemma toggle_once (k : string) (e : element) :
  same_apart_from [k] e (toggle_name k e) /\
  hasClass k (toggle_name k e) = negb (hasClass k e).
Proof.
  destruct (toggle_name_frame k e) as (A1 & A2 & A3). split.
  - repeat split; try assumption.
    intros c Hc. rewrite hasClass_toggle_name.
    destruct (String.eqb_spec c k) as [->|_]; [|reflexivity].
    exfalso. apply Hc. left. reflexivity.
  - rewrite hasClass_toggle_name, String.eqb_refl. reflexivity.
Qed.

Lemma first_with_id_found (i : string) (f : element -> element)
    (before after : list element) (e : element) :
  Forall (fun x => ident x <> i) before -> ident e = i ->
  first_with_id i f (before ++ e :: after)%list = (before ++ f e :: after)%list.
Proof.
  intros Hb He. induction Hb as [|x before Hx _ IH]; cbn [app first_with_id].
  - rewrite He, String.eqb_refl. reflexivity.
  - destruct (String.eqb_spec i (ident x)) as [E|_]; [congruence|].
    rewrite IH. reflexivity.
Qed.

Lemma first_with_id_missing (i : string) (f : element -> element) (l : list element) :
  Forall (fun x => ident x <> i) l -> first_with_id i f l = l.
Proof.
  intros H. induction H as [|x l Hx _ IH]; cbn [first_with_id]; [reflexivity|].
  destruct (String.eqb_spec i (ident x)) as [E|_]; [congruence|].
  rewrite IH. reflexivity.
Qed.

Lemma same_names_all (l : list element) : Forall2 (same_apart_from []) l l.
Proof.
  induction l as [|e l IH]; constructor; [apply same_apart_refl | exact IH].
Qed.

Lemma first_with_id_toggled_twice (i k : string) (l : list element) :
  Forall2 (same_apart_from []) l
          (first_with_id i (toggle_name k) (first_with_id i (toggle_name k) l)).
Proof.
  induction l as [|e l IH]; cbn [first_with_id]; [constructor|].
  destruct (String.eqb i (ident e)) eqn:E; cbn [first_with_id].
  - destruct (toggle_name_frame k e) as (I & _). rewrite I, E.
    constructor; [apply toggle_twice | apply same_names_all].
  - rewrite E. constructor; [apply same_apart_refl | exact IH].
Qed.

(** X16.  A click on the side bar toggle flips the class [open] of the
    first element whose id is [sidebar] and touches nothing else, not even
    a later element with the same id; when no element has that id the page
    stays as it is; a second click gives every element back the class names
    it had. *)
Theorem sidebar_toggle_flips_and_restores (w : window) :
  (forall (before after : list element) (e : element),
      elements w = (before ++ e :: after)%list ->
      Forall (fun x => ident x <> "sidebar") before ->
      ident e = "sidebar" ->
      exists e' : element,
        elements (toggle_sidebar w) = (before ++ e' :: after)%list /\
        same_apart_from ["open"] e e' /\
        hasClass "open" e' = negb (hasClass "open" e)) /\
  (Forall (fun x => ident x <> "sidebar") (elements w) -> toggle_sidebar w = w) /\
  Forall2 (same_apart_from []) (elements w)
          (elements (toggle_sidebar (toggle_sidebar w))).
Proof.
  split; [|split].
  - intros before after e Hw Hb He.
    exists (toggle_name "open" e).
    destruct (toggle_once "open" e) as [T1 T2].
    split; [|split; assumption].
    unfold toggle_sidebar, by_id. cbn [elements set_elements]. rewrite Hw.
    apply (first_with_id_found "sidebar" (toggleClass "open") before after e Hb He).
  - intros H. unfold toggle_sidebar, by_id.
    rewrite (first_with_id_missing "sidebar" _ _ H). destruct w; reflexivity.
  - unfold toggle_sidebar, by_id. cbn [elements set_elements].
    apply (first_with_id_toggled_twice "sidebar" "open").
Qed.

Lemma sidebar_toggle_flips_and_restores_witness :
  exists e' : element,
    elements (toggle_sidebar PageSamples.two_sidebars) =
    ([PageSamples.tag "menu" ["menu-item-wrapper2"] 0] ++ e'
       :: [PageSamples.tag "sidebar" ["open"] 40])%list /\
    same_apart_from ["open"] (PageSamples.tag "sidebar" ["panel"] 20) e' /\
    hasClass "open" e' = negb (hasClass "open" (PageSamples.tag "sidebar" ["panel"] 20)).
Proof.
  apply (proj1 (sidebar_toggle_flips_and_restores PageSamples.two_sidebars)
           [PageSamples.tag "menu" ["menu-item-wrapper2"] 0]
           [PageSamples.tag "sidebar" ["open"] 40]
           (PageSamples.tag "sidebar" ["panel"] 20)).
  - reflexivity.
  - repeat constructor. discriminate.
  - reflexivity.
Defined.

(** X17.  A click on a [.click-toggle] element flips the class [main] of
    every [.click-toggle] element and touches nothing else; a second click
    gives every element back the class names it had. *)
Theorem click_toggle_flips_and_restores (w : window) :
  Forall2 (fun e e' =>
             same_apart_from ["main"] e e' /\
             (hasClass "click-toggle" e = true ->
              hasClass "main" e' = negb (hasClass "main" e)) /\
             (hasClass "click-toggle" e = false -> e' = e))
          (elements w) (elements (click_toggle w)) /\
  Forall2 (same_apart_from []) (elements w)
          (elements (click_toggle (click_toggle w))).
Proof.
  split.
  - apply Forall2_map_self. intros e. cbn [matches].
    change (toggleClass "main" e) with (toggle_name "main" e).
    destruct (hasClass "click-toggle" e) eqn:E.
    + destruct (toggle_once "main" e) as [T1 T2].
      split; [exact T1|]. split; [intros _; exact T2 | discriminate].
    + split; [apply same_apart_refl|]. split; [discriminate | reflexivity].
  - unfold click_toggle, each. cbn [elements set_elements]. rewrite map_map.
    apply Forall2_map_self. intros e. cbn [matches].
    change (toggleClass "main" e) with (toggle_name "main" e).
    destruct (hasClass "click-toggle" e) eqn:E.
    + rewrite hasClass_toggle_name. cbn [String.eqb Ascii.eqb Bool.eqb]. rewrite E.
      apply (toggle_twice "main" e).
    + rewrite E. apply same_apart_refl.
Qed.

Lemma on_click_elements (c : click) (w : window) :
  elements (on_click c w) = map (element_after c) (elements w).
Proof.
  destruct c; unfold on_click, menu_btn_click, close_btn_click, each;
    cbn [elements set_elements]; rewrite map_map; reflexivity.
Qed.

Lemma clicks_elements (l : list click) (w : window) :
  elements (clicks l w) =
  map (fun e => fold_left (fun e c => element_after c e) l e) (elements w).
Proof.
  unfold clicks. revert w. induction l as [|c l IH]; intros w; cbn [fold_left].
  - rewrite map_id. reflexivity.
  - rewrite IH, on_click_elements, map_map. reflexivity.
Qed.

Lemma hasClass_css (k name value : string) (e : element) :
  hasClass k (css name value e) = hasClass k e.
Proof. reflexivity. Qed.

Lemma style_of_css (name value : string) (e : element) :
  style_of name (css name value e) = Some value.
Proof.
  unfold style_of, css. cbn [style set_style find fst]. rewrite String.eqb_refl.
  reflexivity.
Qed.

Lemma side_bar_step (open : bool) (e : element) :
  let e1 := if hasClass "side-bar" e
            then if open then add_name "active" e else remove_name "active" e
            else e in
  ident e1 = ident e /\ offset_top e1 = offset_top e /\ style e1 = style e /\
  (forall k, k <> "active" -> hasClass k e1 = hasClass k e) /\
  (hasClass "side-bar" e = true -> hasClass "active" e1 = open) /\
  (hasClass "side-bar" e = false -> e1 = e).
Proof.
  intros e1. subst e1. destruct (hasClass "side-bar" e) eqn:S.
  - destruct open.
    + destruct (same_apart_add_name "active" ["active"] e) as (A1 & A2 & A3 & A4);
        [left; reflexivity|].
      repeat split; try assumption; try discriminate.
      * intros k Hk. apply A4. intros [E|[]]. congruence.
      * intros _. apply hasClass_add_same.
    + destruct (same_apart_remove_name "active" ["active"] e) as (A1 & A2 & A3 & A4);
        [left; reflexivity|].
      repeat split; try assumption; try discriminate.
      * intros k Hk. apply A4. intros [E|[]]. congruence.
      * intros _. apply hasClass_remove_same.
  - repeat split. discriminate.
Qed.

Lemma menu_btn_step (value : string) (e1 : element) :
  let e2 := if hasClass "menu-btn" e1 then css "visibility" value e1 else e1 in
  ident e2 = ident e1 /\ offset_top e2 = offset_top e1 /\
  (forall k, hasClass k e2 = hasClass k e1) /\
  (hasClass "menu-btn" e1 = true -> style_of "visibility" e2 = Some value) /\
  (hasClass "menu-btn" e1 = false -> e2 = e1).
Proof.
  intros e2. subst e2. destruct (hasClass "menu-btn" e1) eqn:M.
  - repeat split; discriminate.
  - repeat split. discriminate.
Qed.

Lemma element_after_spec (c : click) (e : element) :
  ident (element_after c e) = ident e /\
  offset_top (element_after c e) = offset_top e /\
  (forall k, k <> "active" -> hasClass k (element_after c e) = hasClass k e) /\
  (hasClass "side-bar" e = true -> hasClass "active" (element_after c e) = opens c) /\
  (hasClass "side-bar" e = false ->
   hasClass "active" (element_after c e) = hasClass "active" e) /\
  (hasClass "menu-btn" e = true ->
   style_of "visibility" (element_after c e) =
   Some (if opens c then "hidden" else "visible")) /\
  (hasClass "menu-btn" e = false -> style (element_after c e) = style e).
Proof.
  pose proof (side_bar_step (opens c) e) as S. cbv zeta in S.
  set (e1 := if hasClass "side-bar" e
             then if opens c then add_name "active" e else remove_name "active" e
             else e) in S.
  pose proof (menu_btn_step (if opens c then "hidden" else "visible") e1) as M.
  cbv zeta in M.
  assert (E : element_after c e =
              if hasClass "menu-btn" e1
              then css "visibility" (if opens c then "hidden" else "visible") e1
              else e1) by (destruct c; reflexivity).
  rewrite <- E in M.
  destruct S as (S1 & S2 & S3 & S4 & S5 & S6).
  destruct M as (M1 & M2 & M3 & M4 & M5).
  assert (Mb : hasClass "menu-btn" e1 = hasClass "menu-btn" e)
    by (apply S4; discriminate).
  repeat split; try congruence.
  - intros k Hk. rewrite M3. apply S4. exact Hk.
  - intros H. rewrite M3. apply S5. exact H.
  - intros H. rewrite M3, (S6 H). reflexivity.
  - intros H. apply M4. congruence.
  - intros H. rewrite M5 by congruence. exact S3.
Qed.

Lemma reached_step (c : click) (e e1 : element) :
  reached_by_clicks e e1 -> reached_by_clicks e (element_after c e1).
Proof.
  intros (R1 & R2 & R3 & R4 & R5).
  destruct (element_after_spec c e1) as (A1 & A2 & A3 & _ & A5 & _ & A7).
  assert (Sb : hasClass "side-bar" e1 = hasClass "side-bar" e)
    by (apply R3; discriminate).
  assert (Mb : hasClass "menu-btn" e1 = hasClass "menu-btn" e)
    by (apply R3; discriminate).
  repeat split; try congruence.
  - intros k Hk. rewrite (A3 k Hk). apply R3. exact Hk.
  - intros H. rewrite A5 by congruence. apply R4. exact H.
  - intros H. rewrite A7 by congruence. apply R5. exact H.
Qed.

Lemma reached_fold (l : list click) (e e1 : element) :
  reached_by_clicks e e1 ->
  reached_by_clicks e (fold_left (fun e c => element_after c e) l e1).
Proof.
  revert e1. induction l as [|c l IH]; intros e1 H; cbn [fold_left];
    [exact H | apply IH, reached_step, H].
Qed.

(** X18.  Whatever clicks came before, after a click on [.menu-btn] every
    [.side-bar] element has the class [active] and every [.menu-btn]
    element is hidden, and after a click on [.close-btn] no [.side-bar]
    element has the class [active] and every [.menu-btn] element is
    visible; no other class name and no other element's style changes. *)
Theorem side_bar_follows_last_click (w : window) (before : list click) (last : click) :
  Forall2 (fun e e' =>
             reached_by_clicks e e' /\
             (hasClass "side-bar" e = true -> hasClass "active" e' = opens last) /\
             (hasClass "menu-btn" e = true ->
              style_of "visibility" e' =
              Some (if opens last then "hidden" else "visible")))
          (elements w) (elements (clicks (before ++ [last]) w)).
Proof.
  rewrite clicks_elements. apply Forall2_map_self. intros e.
  rewrite fold_left_app. cbn [fold_left].
  set (e1 := fold_left (fun e c => element_after c e) before e).
  assert (R : reached_by_clicks e e1).
  { apply reached_fold. repeat split. }
  destruct (element_after_spec last e1) as (_ & _ & _ & A4 & _ & A6 & _).
  destruct R as (R1 & R2 & R3 & R4 & R5).
  split; [apply reached_step; repeat split; assumption|].
  split; intros H.
  - apply A4. rewrite R3 by discriminate. exact H.
  - apply A6. rewrite R3 by discriminate. exact H.
Qed.

End Handlers.

(** ** The fields after the deadline and as time passes *)

Section Fields.
Import JS Notions NumberFacts GolfNotions TimerNotions.
Local Open Scope Z_scope.

Lemma spec_fields_after (total : Z) :
  total < 0 ->
  spec_days total <= -1 /\ -24 <= spec_hours total <= 0 /\
  -60 <= spec_minutes total <= 0 /\ -60 <= spec_seconds total <= 0.
Proof.
  intros H. unfold spec_days, spec_hours, spec_minutes, spec_seconds.
  assert (R : forall m, 0 < m -> Z.rem total m = - ((- total) mod m)).
  { intros m Hm. rewrite <- (Z.rem_mod_nonneg (- total)) by lia.
    rewrite Z.rem_opp_l by lia. lia. }
  rewrite !R by lia.
  repeat split; Z.div_mod_to_equations; lia.
Qed.

(** X1.  While the reading is not after the deadline, the hours are at
    most 23 and the minutes and seconds at most 59 (and none is negative),
    so each has one or two digits. *)
Theorem fields_in_clock_range
    (Date_parse : string -> number) (endtime : string) (deadline : Z)
    (w : Golf.World) :
  Date_parse endtime = of_Z deadline ->
  Golf.now w <= deadline ->
  exists H M S : Z,
    Golf.hours (fst (Golf.time_remaining Date_parse endtime w)) = of_Z H /\
    Golf.minutes (fst (Golf.time_remaining Date_parse endtime w)) = of_Z M /\
    Golf.seconds (fst (Golf.time_remaining Date_parse endtime w)) = of_Z S /\
    0 <= H <= 23 /\ 0 <= M <= 59 /\ 0 <= S <= 59.
Proof.
  intros Hd Hle. rewrite GolfFacts.time_remaining_pure. simpl fst.
  rewrite (GolfFacts.remaining_at_parsed Date_parse endtime deadline _ Hd).
  pose proof (spec_fields_bounds (deadline - Golf.now w) ltac:(lia)) as (_ & B2 & B3 & B4).
  exists (spec_hours (deadline - Golf.now w)), (spec_minutes (deadline - Golf.now w)),
         (spec_seconds (deadline - Golf.now w)).
  cbn [Golf.hours Golf.minutes Golf.seconds]. repeat split; lia.
Qed.

Lemma fields_in_clock_range_witness :
  exists H M S : Z,
    Golf.hours (fst (Golf.time_remaining Date_parse_iso Samples.deadline
                       (Golf.page_load Samples.hour_before))) = of_Z H /\
    Golf.minutes (fst (Golf.time_remaining Date_parse_iso Samples.deadline
                         (Golf.page_load Samples.hour_before))) = of_Z M /\
    Golf.seconds (fst (Golf.time_remaining Date_parse_iso Samples.deadline
                         (Golf.page_load Samples.hour_before))) = of_Z S /\
    0 <= H <= 23 /\ 0 <= M <= 59 /\ 0 <= S <= 59.
Proof.
  apply (fields_in_clock_range Date_parse_iso Samples.deadline Samples.deadline_ms
           (Golf.page_load Samples.hour_before) eq_refl).
  vm_compute. discriminate.
Defined.

(** X2.  Once the reading is after the deadline, [time_remaining] returns
    no positive field: the days are at most -1, the hours between -24 and
    0, the minutes and the seconds between -60 and 0. *)
Theorem fields_after_deadline
    (Date_parse : string -> number) (endtime : string) (deadline : Z)
    (w : Golf.World) :
  Date_parse endtime = of_Z deadline ->
  deadline < Golf.now w ->
  exists D H M S : Z,
    Golf.days (fst (Golf.time_remaining Date_parse endtime w)) = of_Z D /\
    Golf.hours (fst (Golf.time_remaining Date_parse endtime w)) = of_Z H /\
    Golf.minutes (fst (Golf.time_remaining Date_parse endtime w)) = of_Z M /\
    Golf.seconds (fst (Golf.time_remaining Date_parse endtime w)) = of_Z S /\
    D <= -1 /\ -24 <= H <= 0 /\ -60 <= M <= 0 /\ -60 <= S <= 0.
Proof.
  intros Hd Hlt. rewrite GolfFacts.time_remaining_pure. simpl fst.
  rewrite (GolfFacts.remaining_at_parsed Date_parse endtime deadline _ Hd).
  pose proof (spec_fields_after (deadline - Golf.now w) ltac:(lia)) as (B1 & B2 & B3 & B4).
  exists (spec_days (deadline - Golf.now w)), (spec_hours (deadline - Golf.now w)),
         (spec_minutes (deadline - Golf.now w)), (spec_seconds (deadline - Golf.now w)).
  cbn [Golf.days Golf.hours Golf.minutes Golf.seconds]. repeat split; lia.
Qed.

Lemma fields_after_deadline_witness :
  exists D H M S : Z,
    Golf.days (fst (Golf.time_remaining Date_parse_iso Samples.deadline
                      (Golf.page_load (Samples.deadline_ms + 5000)))) = of_Z D /\
    Golf.hours (fst (Golf.time_remaining Date_parse_iso Samples.deadline
                       (Golf.page_load (Samples.deadline_ms + 5000)))) = of_Z H /\
    Golf.minutes (fst (Golf.time_remaining Date_parse_iso Samples.deadline
                         (Golf.page_load (Samples.deadline_ms + 5000)))) = of_Z M /\
    Golf.seconds (fst (Golf.time_remaining Date_parse_iso Samples.deadline
                         (Golf.page_load (Samples.deadline_ms + 5000)))) = of_Z S /\
    D <= -1 /\ -24 <= H <= 0 /\ -60 <= M <= 0 /\ -60 <= S <= 0.
Proof.
  apply (fields_after_deadline Date_parse_iso Samples.deadline Samples.deadline_ms
           (Golf.page_load (Samples.deadline_ms + 5000)) eq_refl).
  reflexivity.
Defined.

Lemma slice_after_deadline (n : Z) :
  -99 <= n <= 0 ->
  slice (-2) ("0" ++ ToString (of_Z n)) = shown_after_deadline n.
Proof.
  intros Hn. rewrite ToString_of_Z. apply String.eqb_eq.
  pose proof (below_spec
    (fun k => String.eqb (slice (-2) ("0" ++ string_of_Z (- k)))
                         (shown_after_deadline (- k))) 100) as B.
  specialize (B ltac:(vm_compute; reflexivity) (- n) ltac:(lia)).
  cbv beta in B. rewrite Z.opp_involutive in B. exact B.
Qed.

(** X3.  A run of [update_clock] that finds the deadline passed writes the
    days with their minus sign, and for the hours, the minutes and the
    seconds the last two characters of ["0"] followed by the field: ["00"]
    for zero, a minus sign and a digit from -1 to -9, and from -10 down the
    two digits without the sign. *)
Theorem display_after_deadline
    (Date_parse : string -> number) (endtime : string) (deadline : Z)
    (w : Golf.World) :
  Date_parse endtime = of_Z deadline ->
  deadline < Golf.now w ->
  let w' := exec (Golf.update_clock Date_parse endtime) w in
  let total := deadline - Golf.now w in
  Golf.days_span w' = string_of_Z (spec_days total) /\
  Golf.hours_span w' = shown_after_deadline (spec_hours total) /\
  Golf.minutes_span w' = shown_after_deadline (spec_minutes total) /\
  Golf.seconds_span w' = shown_after_deadline (spec_seconds total).
Proof.
  intros Hd Hlt w' total.
  pose proof (update_clock_spans Date_parse endtime w) as (S1 & S2 & S3 & S4).
  rewrite (GolfFacts.remaining_at_parsed Date_parse endtime deadline _ Hd) in S1, S2, S3, S4.
  cbn [Golf.days Golf.hours Golf.minutes Golf.seconds] in S1, S2, S3, S4.
  fold total in S1, S2, S3, S4. fold w' in S1, S2, S3, S4.
  pose proof (spec_fields_after total ltac:(unfold total; lia)) as (B1 & B2 & B3 & B4).
  rewrite S1, S2, S3, S4, ToString_of_Z.
  rewrite !slice_after_deadline by lia. repeat split.
Qed.

Lemma display_after_deadline_witness :
  Golf.hours_span (exec (Golf.update_clock Date_parse_iso Samples.deadline)
                     (Golf.page_load (Samples.deadline_ms + 45000000))) =
  shown_after_deadline (spec_hours (Samples.deadline_ms - (Samples.deadline_ms + 45000000))).
Proof.
  refine (proj1 (proj2
    (display_after_deadline Date_parse_iso Samples.deadline Samples.deadline_ms
       (Golf.page_load (Samples.deadline_ms + 45000000)) eq_refl _))).
  reflexivity.
Defined.

(** X4.  As the clock advances the total and the days never go up: a later
    reading gives a total and a number of days that are at most those of
    an earlier reading. *)
Theorem remaining_never_goes_up
    (Date_parse : string -> number) (endtime : string) (deadline : Z)
    (w1 w2 : Golf.World) :
  Date_parse endtime = of_Z deadline ->
  Golf.now w1 <= Golf.now w2 ->
  exists T1 T2 D1 D2 : Z,
    Golf.total (fst (Golf.time_remaining Date_parse endtime w1)) = of_Z T1 /\
    Golf.total (fst (Golf.time_remaining Date_parse endtime w2)) = of_Z T2 /\
    Golf.days (fst (Golf.time_remaining Date_parse endtime w1)) = of_Z D1 /\
    Golf.days (fst (Golf.time_remaining Date_parse endtime w2)) = of_Z D2 /\
    T2 <= T1 /\ D2 <= D1.
Proof.
  intros Hd Hle. rewrite !GolfFacts.time_remaining_pure. simpl fst.
  rewrite !(GolfFacts.remaining_at_parsed Date_parse endtime deadline _ Hd).
  exists (deadline - Golf.now w1), (deadline - Golf.now w2),
         (spec_days (deadline - Golf.now w1)), (spec_days (deadline - Golf.now w2)).
  cbn [Golf.total Golf.days]. repeat split; [lia|].
  unfold spec_days. apply Z.div_le_mono; lia.
Qed.

Lemma remaining_never_goes_up_witness :
  exists T1 T2 D1 D2 : Z,
    Golf.total (fst (Golf.time_remaining Date_parse_iso Samples.deadline
                       (Golf.page_load Samples.month_before))) = of_Z T1 /\
    Golf.total (fst (Golf.time_remaining Date_parse_iso Samples.deadline
                       (Golf.page_load Samples.hour_before))) = of_Z T2 /\
    Golf.days (fst (Golf.time_remaining Date_parse_iso Samples.deadline
                      (Golf.page_load Samples.month_before))) = of_Z D1 /\
    Golf.days (fst (Golf.time_remaining Date_parse_iso Samples.deadline
                      (Golf.page_load Samples.hour_before))) = of_Z D2 /\
    T2 <= T1 /\ D2 <= D1.
Proof.
  apply (remaining_never_goes_up Date_parse_iso Samples.deadline Samples.deadline_ms
           (Golf.page_load Samples.month_before) (Golf.page_load Samples.hour_before)
           eq_refl).
  vm_compute. discriminate.
Defined.

End Fields.

(** ** The timers from start to end *)

Section TimerLife.
Import JS Notions NumberFacts TimerNotions.
Local Open Scope Z_scope.

Lemma host_run_app {W C : Type} (timers_of : W -> timers C) (set_clock : Z -> W -> W)
    (run : C -> State W unit) (a b : list Z) (w : W) :
  exec (host_run timers_of set_clock run (a ++ b)%list) w =
  exec (host_run timers_of set_clock run b) (exec (host_run timers_of set_clock run a) w).
Proof.
  revert w. induction a as [|r a IH]; intros w; cbn [app host_run].
  - reflexivity.
  - rewrite !exec_seq. apply IH.
Qed.

Lemma golf_turn_when_stopped (Date_parse : string -> number) (r : Z) (w : Golf.World) :
  GolfNotions.stopped w ->
  exec (host_tick Golf.scheduled Golf.set_now (Golf.run_callback Date_parse) r) w =
  Golf.set_now r w.
Proof.
  intros (Ha & Ht). unfold host_tick, exec, bind, modify, gets. simpl.
  rewrite Ha. reflexivity.
Qed.

Lemma golf_turns_when_stopped (Date_parse : string -> number) (rs : list Z)
    (w : Golf.World) :
  GolfNotions.stopped w ->
  exists n : Z,
    exec (host_run Golf.scheduled Golf.set_now (Golf.run_callback Date_parse) rs) w =
    Golf.set_now n w.
Proof.
  revert w. induction rs as [|r rs IH]; intros w Hw; cbn [host_run].
  - exists (Golf.now w). destruct w; reflexivity.
  - rewrite exec_seq, (golf_turn_when_stopped Date_parse r w Hw).
    destruct (IH (Golf.set_now r w)) as [n Hn]; [exact Hw|].
    exists n. rewrite Hn. reflexivity.
Qed.

Lemma golf_trace_while_live (at_reading : Z -> Golf.Remaining) (rs : list Z) :
  Forall (fun r => GolfNotions.expired (at_reading r) = false) rs ->
  GolfNotions.scheduled_trace at_reading rs = map (fun r => Golf.Tick (at_reading r)) rs /\
  existsb (fun r => GolfNotions.expired (at_reading r)) rs = false.
Proof.
  induction 1 as [|r rs Hr _ [IH1 IH2]]; cbn [GolfNotions.scheduled_trace map existsb].
  - split; reflexivity.
  - rewrite Hr. split; [f_equal; exact IH1 | exact IH2].
Qed.

(** X5.  While every reading is before the deadline, [run_clock] and the
    interval deliver one run of [update_clock] per reading, first the
    synchronous one, and [clearInterval] is never called: the interval
    stays armed. *)
Theorem golf_runs_until_deadline
    (Date_parse : string -> number) (id endtime : string)
    (deadline start : Z) (readings : list Z) :
  Date_parse endtime = of_Z deadline ->
  start < deadline ->
  Forall (fun r => r < deadline) readings ->
  Golf.trace (Golf.session Date_parse id endtime start readings) =
  map (fun r => Golf.Tick (GolfNotions.remaining_at Date_parse endtime r))
      (start :: readings) /\
  armed (Golf.scheduled (Golf.session Date_parse id endtime start readings)) =
  [GolfNotions.entry endtime].
Proof.
  intros Hd Hs Hr.
  destruct (GolfFacts.session_trace Date_parse id endtime start readings) as [T S].
  destruct (GolfFacts.run_clock_exec Date_parse id endtime start) as (_ & _ & Htr).
  rewrite (GolfFacts.expired_parsed Date_parse endtime deadline start Hd) in Htr.
  replace (deadline <=? start) with false in Htr by (symmetry; apply Z.leb_gt; exact Hs).
  destruct (golf_trace_while_live (GolfNotions.remaining_at Date_parse endtime) readings)
    as [L1 L2].
  { apply (Forall_impl _ (P := fun r => r < deadline)); [|exact Hr].
    intros r H. rewrite (GolfFacts.expired_parsed Date_parse endtime deadline r Hd).
    apply Z.leb_gt. exact H. }
  rewrite L2 in S. rewrite T, Htr, L1. split; [reflexivity | exact (proj1 S)].
Qed.

Lemma golf_runs_until_deadline_witness :
  armed (Golf.scheduled
           (Golf.session Date_parse_iso "counter-stats" Samples.deadline
              Samples.month_before [Samples.hour_before])) =
  [GolfNotions.entry Samples.deadline].
Proof.
  refine (proj2
    (golf_runs_until_deadline Date_parse_iso "counter-stats" Samples.deadline
       Samples.deadline_ms Samples.month_before [Samples.hour_before] eq_refl _ _)).
  - reflexivity.
  - repeat constructor.
Defined.

(** X6.  Once the interval has been cleared, further turns of the timer
    loop change nothing on the page: spans, interval table, variables and
    events stay as the clearing run left them, whatever the later
    readings. *)
Theorem golf_page_frozen_once_cleared
    (Date_parse : string -> number) (id endtime : string)
    (deadline start r : Z) (before rest : list Z) :
  Date_parse endtime = of_Z deadline ->
  deadline <= r ->
  exists n : Z,
    Golf.session Date_parse id endtime start (before ++ r :: rest)%list =
    Golf.set_now n (Golf.session Date_parse id endtime start (before ++ [r])%list).
Proof.
  intros Hd Hr.
  replace (before ++ r :: rest)%list with ((before ++ [r]) ++ rest)%list
    by (rewrite <- app_assoc; reflexivity).
  unfold Golf.session. rewrite !exec_seq, host_run_app.
  apply golf_turns_when_stopped.
  destruct (GolfFacts.session_trace Date_parse id endtime start (before ++ [r])%list)
    as [_ S].
  unfold Golf.session in S. rewrite exec_seq in S.
  replace (existsb _ (before ++ [r])%list) with true in S; [exact S|].
  symmetry. apply existsb_exists. exists r. split.
  - apply in_or_app. right. left. reflexivity.
  - rewrite (GolfFacts.expired_parsed Date_parse endtime deadline r Hd).
    apply Z.leb_le. exact Hr.
Qed.

Lemma golf_page_frozen_once_cleared_witness :
  exists n : Z,
    Golf.session Date_parse_iso "counter-stats" Samples.deadline Samples.hour_before
      ([Samples.deadline_ms - 1000] ++ Samples.deadline_ms
         :: [Samples.deadline_ms + 1000])%list =
    Golf.set_now n
      (Golf.session Date_parse_iso "counter-stats" Samples.deadline Samples.hour_before
         ([Samples.deadline_ms - 1000] ++ [Samples.deadline_ms])%list).
Proof.
  apply (golf_page_frozen_once_cleared Date_parse_iso "counter-stats" Samples.deadline
           Samples.deadline_ms Samples.hour_before Samples.deadline_ms
           [Samples.deadline_ms - 1000] [Samples.deadline_ms + 1000] eq_refl).
  vm_compute. discriminate.
Defined.

(** *** The 09/30 countdown *)

Lemma countdown_turn_when_running (countDown : number) (r : Z) (w : Countdown.World) :
  CountdownNotions.running countDown w ->
  exec (host_tick Countdown.scheduled Countdown.set_now Countdown.run_callback r) w =
  exec (Countdown.tick countDown) (Countdown.set_now r w).
Proof.
  intros (Ha & Hx).
  unfold host_tick, exec, bind, modify, gets. simpl. rewrite Ha. simpl.
  unfold bind, gets, is_armed, lookup. simpl. rewrite Ha. simpl.
  destruct (Countdown.tick countDown (Countdown.set_now r w)) as [[] w1].
  reflexivity.
Qed.

Lemma countdown_turn_when_stopped (r : Z) (w : Countdown.World) :
  CountdownNotions.stopped w ->
  exec (host_tick Countdown.scheduled Countdown.set_now Countdown.run_callback r) w =
  Countdown.set_now r w.
Proof.
  intros (Ha & Hx). unfold host_tick, exec, bind, modify, gets. simpl.
  rewrite Ha. reflexivity.
Qed.

Lemma countdown_turns_when_stopped (rs : list Z) (w : Countdown.World) :
  CountdownNotions.stopped w ->
  exists n : Z,
    exec (host_run Countdown.scheduled Countdown.set_now Countdown.run_callback rs) w =
    Countdown.set_now n w.
Proof.
  revert w. induction rs as [|r rs IH]; intros w Hw; cbn [host_run].
  - exists (Countdown.now w). destruct w; reflexivity.
  - rewrite exec_seq, (countdown_turn_when_stopped r w Hw).
    destruct (IH (Countdown.set_now r w)) as [n Hn]; [exact Hw|].
    exists n. rewrite Hn. reflexivity.
Qed.

Lemma panels_after_tick (countDown : number) (w : Countdown.World) :
  panels (exec (Countdown.tick countDown) w) =
  if CountdownNotions.expired (CountdownNotions.distance_at countDown (Countdown.now w))
  then ("It's my birthday!", "none", "block")
  else panels w.
Proof.
  rewrite CountdownFacts.tick_exec.
  destruct (CountdownNotions.expired _); reflexivity.
Qed.

Lemma panels_after_turns (countDown : number) (rs : list Z) (w : Countdown.World) :
  CountdownNotions.running countDown w ->
  panels (exec (host_run Countdown.scheduled Countdown.set_now Countdown.run_callback rs) w) =
  if existsb (fun r => CountdownNotions.expired (CountdownNotions.distance_at countDown r)) rs
  then ("It's my birthday!", "none", "block")
  else panels w.
Proof.
  revert w. induction rs as [|r rs IH]; intros w Hw; cbn [host_run existsb].
  - reflexivity.
  - rewrite exec_seq.
    pose proof (CountdownFacts.tick_turn_running countDown r w Hw) as T. cbv zeta in T.
    pose proof (countdown_turn_when_running countDown r w Hw) as E.
    pose proof (panels_after_tick countDown (Countdown.set_now r w)) as P.
    rewrite <- E in P. cbn [Countdown.now Countdown.set_now] in P.
    destruct (CountdownNotions.expired (CountdownNotions.distance_at countDown r)).
    + destruct T as [St _].
      destruct (countdown_turns_when_stopped rs _ St) as [n Hn].
      rewrite Hn. cbn [orb]. rewrite <- P. reflexivity.
    + destruct T as [Rn _]. cbn [orb]. rewrite (IH _ Rn), P. reflexivity.
Qed.

(** X7.  The 09/30 countdown shows the birthday headline, hides the
    countdown panel and shows the content panel exactly when some tick has
    read the clock after the deadline; until then the three are as the
    page was loaded. *)
Theorem panels_switch_after_deadline
    (Date_parse : string -> number) (tza : Z) (today : Countdown.DateObj)
    (deadline : Z) (readings : list Z) :
  Countdown.countDown_of Date_parse today = of_Z deadline ->
  panels (Countdown.session Date_parse tza today readings) =
  if existsb (fun r => deadline <? r) readings
  then ("It's my birthday!", "none", "block")
  else ("", "block", "none").
Proof.
  intros Hc. unfold Countdown.session. rewrite exec_seq.
  destruct (CountdownFacts.countdown_exec Date_parse today (Countdown.getTime tza today))
    as [Hr _].
  rewrite (panels_after_turns _ readings _ Hr). rewrite Hc.
  replace (existsb (fun r => CountdownNotions.expired
                               (CountdownNotions.distance_at (of_Z deadline) r)) readings)
    with (existsb (fun r => deadline <? r) readings).
  - reflexivity.
  - induction readings as [|r rs IH]; cbn [existsb]; [reflexivity|].
    rewrite IH, CountdownFacts.expired_of_Z. reflexivity.
Qed.

Lemma panels_switch_after_deadline_witness :
  panels (Countdown.session (Date_parse_mdy 0) 0 Samples.eve
            [Samples.deadline_ms; Samples.deadline_ms + 4]) =
  if existsb (fun r => Samples.deadline_ms <? r)
             [Samples.deadline_ms; Samples.deadline_ms + 4]
  then ("It's my birthday!", "none", "block")
  else ("", "block", "none").
Proof.
  exact (panels_switch_after_deadline (Date_parse_mdy 0) 0 Samples.eve
           Samples.deadline_ms [Samples.deadline_ms; Samples.deadline_ms + 4] eq_refl).
Defined.

Lemma countdown_trace_unparsed (rs : list Z) :
  CountdownNotions.scheduled_trace NaN rs = map (fun _ => Countdown.Tick NaN) rs /\
  existsb (fun r => CountdownNotions.expired (CountdownNotions.distance_at NaN r)) rs = false.
Proof.
  induction rs as [|r rs [IH1 IH2]]; cbn [CountdownNotions.scheduled_trace map existsb].
  - split; reflexivity.
  - change (CountdownNotions.expired (CountdownNotions.distance_at NaN r)) with false.
    split; [f_equal; exact IH1 | exact IH2].
Qed.

(** X8.  When the host cannot parse the deadline string of the 09/30
    countdown, nothing is reported: the interval is armed, every turn of
    the timer loop delivers a tick that writes ["NaN"] in the four
    elements, the panels never switch and the interval is never cleared. *)
Theorem countdown_without_deadline
    (Date_parse : string -> number) (tza : Z) (today : Countdown.DateObj)
    (readings : list Z) :
  Countdown.countDown_of Date_parse today = NaN ->
  Countdown.trace (Countdown.session Date_parse tza today readings) =
  map (fun _ => Countdown.Tick NaN) readings /\
  armed (Countdown.scheduled (Countdown.session Date_parse tza today readings)) =
  [CountdownNotions.entry NaN] /\
  panels (Countdown.session Date_parse tza today readings) = ("", "block", "none") /\
  (forall w : Countdown.World,
      CountdownNotions.texts (exec (Countdown.tick NaN) w) = ("NaN", "NaN", "NaN", "NaN")).
Proof.
  intros Hc.
  destruct (CountdownFacts.countdown_session_trace Date_parse tza today readings) as [T S].
  rewrite Hc in T, S.
  destruct (countdown_trace_unparsed readings) as [E1 E2].
  rewrite E2 in S. rewrite E1 in T.
  split; [|split; [|split]].
  - exact T.
  - exact (proj1 S).
  - unfold Countdown.session. rewrite exec_seq.
    destruct (CountdownFacts.countdown_exec Date_parse today (Countdown.getTime tza today))
      as [Hr _].
    rewrite (panels_after_turns _ readings _ Hr), Hc, E2. reflexivity.
  - intros w. rewrite CountdownFacts.tick_exec. reflexivity.
Qed.

Lemma countdown_without_deadline_witness :
  armed (Countdown.scheduled
           (Countdown.session Date_parse_iso 0 Samples.eve [1000; 2000])) =
  [CountdownNotions.entry NaN].
Proof.
  exact (proj1 (proj2
    (countdown_without_deadline Date_parse_iso 0 Samples.eve [1000; 2000] eq_refl))).
Defined.

End TimerLife.

(** ** The deadline of the 09/30 countdown through the year *)

Section DeadlineThroughTheYear.
Import JS Notions NumberFacts Countdown CountdownNotions TimerNotions.
Local Open Scope Z_scope.

Lemma after_september_30_by_month (today : DateObj) :
  well_formed today ->
  after_september_30 (Month today) (DayOfMonth today) = (9 <=? Month today).
Proof.
  intros (Hm & Hd & _). unfold after_september_30.
  destruct (month_cases _ Hm) as [E|[E|[E|[E|[E|[E|[E|[E|[E|[E|[E|E]]]]]]]]]]];
    rewrite E in *; try reflexivity.
  cbn [Z.ltb Z.eqb Z.compare Pos.compare Pos.compare_cont Pos.eqb orb andb Z.leb].
  apply Z.ltb_ge. destruct (InLeapYear (FullYear today)); simpl in Hd; lia.
Qed.

(** X9.  From 1 January to 30 September the deadline string names 30
    September of the current year, and from 1 October to 31 December that
    of the next year: comparing the zero-padded strings orders the dates
    as the calendar does. *)
Theorem deadline_year_by_month (today : DateObj) :
  well_formed today ->
  (Month today <= 8 ->
   birthday_string today = "09/30/" ++ ToString (of_Z (FullYear today))) /\
  (9 <= Month today ->
   birthday_string today = "09/30/" ++ ToString (of_Z (FullYear today + 1))).
Proof.
  intros Hw. pose proof Hw as (Hm & Hd & _).
  pose proof (days_in_month_bound (InLeapYear (FullYear today)) _ Hm) as Hb.
  rewrite (birthday_string_cases today Hm ltac:(lia)).
  rewrite (after_september_30_by_month today Hw).
  split; intros H.
  - replace (9 <=? Month today) with false by (symmetry; apply Z.leb_gt; lia).
    reflexivity.
  - replace (9 <=? Month today) with true by (symmetry; apply Z.leb_le; lia).
    reflexivity.
Qed.

Lemma deadline_year_by_month_witness :
  birthday_string Samples.day_after = "09/30/" ++ ToString (of_Z (FullYear Samples.day_after + 1)).
Proof.
  refine (proj2 (deadline_year_by_month Samples.day_after _) _).
  - repeat split; vm_compute; congruence.
  - vm_compute. discriminate.
Defined.

Lemma DayFromYear_step_up (y : Z) : DayFromYear (y + 1) <= DayFromYear y + 366.
Proof.
  unfold DayFromYear. Z.div_mod_to_equations. lia.
Qed.

Lemma day_after_september_30 (leap : bool) (m d : Z) :
  0 <= m <= 11 -> 1 <= d ->
  after_september_30 m d = true ->
  DayWithinYear leap 8 + 30 <= DayWithinYear leap m + d - 1.
Proof.
  intros Hm Hd Ha. unfold after_september_30 in Ha.
  destruct (month_cases m Hm) as [E|[E|[E|[E|[E|[E|[E|[E|[E|[E|[E|E]]]]]]]]]]];
    subst m; simpl in Ha; try discriminate; try apply Z.ltb_lt in Ha;
    destruct leap; cbn [DayWithinYear]; lia.
Qed.

(** X10.  At start-up the deadline is never more than 366 days ahead. *)
Theorem deadline_within_a_year
    (Date_parse : string -> number) (tza : Z) (today : DateObj) :
  well_formed today ->
  reads_september_30 Date_parse tza (FullYear today) ->
  reads_september_30 Date_parse tza (FullYear today + 1) ->
  exists c : Z,
    countDown_of Date_parse today = of_Z c /\
    c - getTime tza today <= 366 * msPerDay.
Proof.
  intros (Hm & Hd & Ht) R0 R1.
  pose proof (days_in_month_bound (InLeapYear (FullYear today)) _ Hm) as Hb.
  assert (Hd' : 1 <= DayOfMonth today <= 31) by lia.
  unfold countDown_of. rewrite (birthday_string_cases today Hm Hd').
  unfold getTime, MakeDate, msPerDay in *.
  rewrite (MakeDay_in_year _ _ _ Hm).
  destruct (after_september_30 (Month today) (DayOfMonth today)) eqn:A.
  - eexists. split; [exact R1|]. unfold MakeDate, msPerDay.
    rewrite (MakeDay_in_year (FullYear today + 1) 8 30) by lia.
    pose proof (DayFromYear_step_up (FullYear today)) as S.
    pose proof (day_after_september_30 (InLeapYear (FullYear today)) _ _ Hm
                  (proj1 Hd') A) as B.
    assert (L : DayWithinYear (InLeapYear (FullYear today + 1)) 8 <=
                DayWithinYear (InLeapYear (FullYear today)) 8 + 1)
      by (destruct (InLeapYear (FullYear today + 1)), (InLeapYear (FullYear today));
          cbn [DayWithinYear]; lia).
    lia.
  - eexists. split; [exact R0|]. unfold MakeDate, msPerDay.
    rewrite (MakeDay_in_year (FullYear today) 8 30) by lia.
    pose proof (day_within_year_bound (InLeapYear (FullYear today)) _ Hm) as B.
    pose proof (day_within_year_bound (InLeapYear (FullYear today)) 8 ltac:(lia)) as B8.
    lia.
Qed.

Lemma deadline_within_a_year_witness :
  exists c : Z,
    countDown_of (Date_parse_mdy 0) Samples.day_after = of_Z c /\
    c - getTime 0 Samples.day_after <= 366 * msPerDay.
Proof.
  apply (deadline_within_a_year (Date_parse_mdy 0) 0 Samples.day_after).
  - repeat split; vm_compute; congruence.
  - reflexivity.
  - reflexivity.
Defined.

(** X11.  When the page is loaded on 30 September after midnight, the
    first tick already finds the deadline passed: it shows the birthday
    headline and the content panel and clears the interval, and no tick
    follows. *)
Theorem birthday_shown_on_the_day
    (Date_parse : string -> number) (tza : Z) (today : DateObj)
    (r : Z) (rest : list Z) :
  well_formed today ->
  Month today = 8 -> DayOfMonth today = 30 ->
  0 < TimeWithinDay today ->
  reads_september_30 Date_parse tza (FullYear today) ->
  getTime tza today <= r ->
  (exists d : number,
      Countdown.trace (session Date_parse tza today (r :: rest)) =
      [Tick d; Expire; Cleared (Some 1%nat)]) /\
  panels (session Date_parse tza today (r :: rest)) =
  ("It's my birthday!", "none", "block") /\
  armed (scheduled (session Date_parse tza today (r :: rest))) = [].
Proof.
  intros (Hm & Hd & Ht) E1 E2 Hpos R0 Hr.
  assert (C : countDown_of Date_parse today =
              of_Z (MakeDate (MakeDay (FullYear today) 8 30) 0 - tza)).
  { unfold countDown_of. rewrite (birthday_string_cases today Hm ltac:(lia)).
    rewrite E1, E2. exact R0. }
  assert (L : MakeDate (MakeDay (FullYear today) 8 30) 0 - tza < r).
  { unfold getTime in Hr. rewrite E1, E2 in Hr. unfold MakeDate in *. lia. }
  destruct (CountdownFacts.countdown_session_trace Date_parse tza today (r :: rest))
    as [T S].
  rewrite C in T, S. cbn [scheduled_trace existsb] in T, S.
  rewrite CountdownFacts.expired_of_Z in T, S.
  replace (_ <? r) with true in T, S by (symmetry; apply Z.ltb_lt; exact L).
  cbn [orb] in S.
  split; [eexists; exact T|]. split; [|exact (proj1 S)].
  unfold session. rewrite exec_seq.
  destruct (CountdownFacts.countdown_exec Date_parse today (getTime tza today)) as [Hrun _].
  rewrite (panels_after_turns _ (r :: rest) _ Hrun), C. cbn [existsb].
  rewrite CountdownFacts.expired_of_Z.
  replace (_ <? r) with true by (symmetry; apply Z.ltb_lt; exact L).
  reflexivity.
Qed.

Lemma birthday_shown_on_the_day_witness :
  panels (session (Date_parse_mdy 0) 0 Samples.the_day
            [getTime 0 Samples.the_day + 4; getTime 0 Samples.the_day + 8]) =
  ("It's my birthday!", "none", "block").
Proof.
  refine (proj1 (proj2
    (birthday_shown_on_the_day (Date_parse_mdy 0) 0 Samples.the_day
       (getTime 0 Samples.the_day + 4) [getTime 0 Samples.the_day + 8]
       _ eq_refl eq_refl _ eq_refl _))).
  - repeat split; vm_compute; congruence.
  - reflexivity.
  - vm_compute. discriminate.
Defined.

End DeadlineThroughTheYear.
